(** * Iteration Tracker dashboard: table controller, modals and document route

    A shallow embedding of the client component (the dashboard, the document
    viewer and the deviation / risk summary modal) and of the
    [/api/documents/supplier-nda] route handler, with the properties of the
    filter / sort / pagination state machine and of the two modals.

    Modelling conventions.
    - A JavaScript string is its sequence of UTF-16 code units.
    - A JavaScript number that the program only ever uses as a count or an
      index (array lengths, page size, page index) is a [Z]; the numbers that
      carry fractional data (scores, time stamps, bar widths) are IEEE 754
      binary64 values, i.e. Rocq's primitive [float].
    - React state is an explicit record; an event handler is a function on
      that record, and the effect that re-validates the page index runs after
      every handler. *)

From Stdlib Require Import List Bool Ascii String NArith ZArith QArith Qround Lia.
From Stdlib Require Import PrimFloat SpecFloat FloatOps FloatAxioms.
From Stdlib Require Import Permutation.
Import ListNotations.

Set Implicit Arguments.
Set Warnings "-inexact-float".

(* ------------------------------------------------------------------------ *)
(** ** JavaScript values used by the program *)

Module JS.

(** Strings: sequences of UTF-16 code units. *)
Definition codeunit := N.
Definition jsstring := list codeunit.

(** An ASCII literal as a JavaScript string. *)
Definition str (s : string) : jsstring :=
  map N_of_ascii (list_ascii_of_string s).

(** [a === b] on strings. *)
Fixpoint streq (a b : jsstring) : bool :=
  match a, b with
  | [], [] => true
  | x :: a', y :: b' => N.eqb x y && streq a' b'
  | _, _ => false
  end.

(** White space and line terminators, as [String.prototype.trim] strips
    them: TAB, LF, VT, FF, CR, SP, NBSP, the Unicode space separators,
    LS, PS and the byte order mark. *)
Definition isWhiteSpace (c : codeunit) : bool :=
  ((9 <=? c) && (c <=? 13) || (c =? 32) || (c =? 160) || (c =? 5760)
   || (8192 <=? c) && (c <=? 8202) || (c =? 8232) || (c =? 8233)
   || (c =? 8239) || (c =? 8287) || (c =? 12288) || (c =? 65279))%N.

Fixpoint trimStart (s : jsstring) : jsstring :=
  match s with
  | [] => []
  | c :: s' => if isWhiteSpace c then trimStart s' else s
  end.

Definition trimEnd (s : jsstring) : jsstring := rev (trimStart (rev s)).

Definition trim (s : jsstring) : jsstring := trimEnd (trimStart s).

(** Truthiness of a string: only the empty string is falsy. *)
Definition truthy (s : jsstring) : bool :=
  match s with [] => false | _ :: _ => true end.

Fixpoint startsWith (s pat : jsstring) : bool :=
  match pat, s with
  | [], _ => true
  | _ :: _, [] => false
  | p :: pat', c :: s' => N.eqb c p && startsWith s' pat'
  end.

(** [s.includes(pat)]: [pat] occurs in [s] at some position. *)
Fixpoint includes (s pat : jsstring) : bool :=
  startsWith s pat ||
  match s with
  | [] => false
  | _ :: s' => includes s' pat
  end.

(** Lower-casing of the letters A to Z.  It coincides with
    [String.prototype.toLowerCase] on every string whose other code units
    have no lower-case mapping; the sample data and the search terms used
    in the concrete evaluations below are such strings.  The general
    statements take the lower-casing function as a parameter. *)
Definition lowerUnit (c : codeunit) : codeunit :=
  if ((65 <=? c) && (c <=? 90))%N then (c + 32)%N else c.

Definition toLowerCaseASCII (s : jsstring) : jsstring := map lowerUnit s.

(** Numbers. *)
Definition isNaN (x : float) : bool := PrimFloat.is_nan x.

(** Truthiness of a number: [0], [-0] and [NaN] are falsy. *)
Definition falsyNumber (x : float) : bool :=
  PrimFloat.is_zero x || PrimFloat.is_nan x.

(** [a || b] on numbers. *)
Definition orElse (a b : float) : float := if falsyNumber a then b else a.

(** [Math.min(a, b)]: NaN if either is NaN, and [-0] below [+0]. *)
Definition Math_min (a b : float) : float :=
  if PrimFloat.is_nan a || PrimFloat.is_nan b then PrimFloat.nan
  else if PrimFloat.ltb a b then a
  else if PrimFloat.ltb b a then b
  else if PrimFloat.get_sign a then a else b.

(** [Math.max(a, b)]: NaN if either is NaN, and [+0] above [-0]. *)
Definition Math_max (a b : float) : float :=
  if PrimFloat.is_nan a || PrimFloat.is_nan b then PrimFloat.nan
  else if PrimFloat.ltb a b then b
  else if PrimFloat.ltb b a then a
  else if PrimFloat.get_sign a then b else a.

(** [Math.ceil(a / b)] for a count [a] and a positive integer [b].  The
    quotient of two such integers below 2^53 is rounded by less than its
    distance to the next integer, so the ceiling of the binary64 quotient
    is the ceiling of the exact one. *)
Definition Math_ceil_div (a b : Z) : Z := Qceiling (inject_Z a / inject_Z b).

(** [arr.slice(start, end)] with the relative-index rules of the language:
    a negative index counts from the end, and both are clamped to the
    array. *)
Definition relIndex (len i : Z) : Z :=
  if (i <? 0)%Z then Z.max (len + i) 0 else Z.min i len.

Definition slice {A} (arr : list A) (s e : Z) : list A :=
  let len := Z.of_nat (List.length arr) in
  let k := relIndex len s in
  let final := relIndex len e in
  firstn (Z.to_nat (Z.max (final - k) 0)) (skipn (Z.to_nat k) arr).

End JS.

(* ------------------------------------------------------------------------ *)
(** ** Interfaces / data models *)

Inductive RiskLevel := Low | Medium | High.

Record DeviationRow := {
  clause : JS.jsstring;
  baseline : JS.jsstring;
  supplier : JS.jsstring;
  deviation : JS.jsstring;
  devRiskLevel : RiskLevel;
  recommendation : JS.jsstring;
  score : float  (* clause-level risk score used for distribution bars *)
}.

Record ProjectRow := {
  id : JS.jsstring;
  username : JS.jsstring;
  projectName : JS.jsstring;
  createdAt : JS.jsstring;
  updatedAt : JS.jsstring;
  riskLevel : RiskLevel;
  totalWeightedScore : float;
  supplierDocTitle : JS.jsstring;
  baselineDocTitle : JS.jsstring;
  supplierDocUrl : JS.jsstring;
  baselineDocUrl : JS.jsstring;
  deviations : list DeviationRow
}.

(** The union types of the dashboard. *)
Inductive RiskFilter := RF_All | RF_High | RF_Medium | RF_Low.
Inductive SortKey := SK_createdAt | SK_updatedAt | SK_totalWeightedScore.
Inductive SortDirection := asc | desc.

(** The string of a risk level, read as a value of the filter's type: this is
    what [p.riskLevel === riskFilter] compares. *)
Definition filterOfLevel (r : RiskLevel) : RiskFilter :=
  match r with Low => RF_Low | Medium => RF_Medium | High => RF_High end.

Definition RiskFilter_eqb (a b : RiskFilter) : bool :=
  match a, b with
  | RF_All, RF_All | RF_High, RF_High | RF_Medium, RF_Medium | RF_Low, RF_Low => true
  | _, _ => false
  end.

Definition SortKey_eqb (a b : SortKey) : bool :=
  match a, b with
  | SK_createdAt, SK_createdAt | SK_updatedAt, SK_updatedAt
  | SK_totalWeightedScore, SK_totalWeightedScore => true
  | _, _ => false
  end.

(* ------------------------------------------------------------------------ *)
(** ** Small pure utils *)

Module Utils.
Import JS.

Section Format.
(** The text of a number in a template literal, the language's own
    conversion of numbers to strings. *)
Variable Number_toString : float -> jsstring.

End Format.

End Utils.

(* ------------------------------------------------------------------------ *)
(** ** Mock sample projects *)

Module Sample.
Import JS.

Definition enDash : jsstring := [8211%N].
Definition nbHyphen : jsstring := [8209%N].
Definition dquote : jsstring := [34%N].

Definition security : DeviationRow := {|
  clause := str "Security";
  baseline := str "If there is any unauthorized handling or loss of, or inability to account for any Confidential Information ...";
  supplier := str "For as long as any Confidential Information is in the Receiving Party's possession or control, the Receiving Party will protect and maintain the confidentiality and security ...";
  deviation := str "Security obligations are less prescriptive than TD baseline and do not include explicit incident remediation steps.";
  devRiskLevel := High;
  recommendation := str "Align security obligations with TD baseline incident handling language.";
  score := 6
|}.

Definition confidentiality : DeviationRow := {|
  clause := str "Confidentiality";
  baseline := str "Confidential Information does not include information that is or becomes public, independently developed, or obtained from a third party without breach ...";
  supplier := dquote ++ str "Confidential Information" ++ dquote ++ str " means any non"
              ++ nbHyphen ++ str "public proprietary information ...";
  deviation := str "Confidentiality carve-outs narrowed; survival period reduced compared to TD baseline.";
  devRiskLevel := Medium;
  recommendation := str "Restore full TD carve" ++ nbHyphen ++ str "outs and minimum survival period.";
  score := 3
|}.

Definition generalProvisions : DeviationRow := {|
  clause := str "General provisions";
  baseline := str "Agreement governed by the laws of Ontario, Canada ...";
  supplier := str "Agreement governed by the laws of Delaware, USA ...";
  deviation := str "Governing law moved away from TD's standard jurisdiction.";
  devRiskLevel := Medium;
  recommendation := str "Keep Ontario governing law unless approved as an exception.";
  score := 3
|}.

Definition durationTermination : DeviationRow := {|
  clause := str "Duration & termination";
  baseline := str "Either party may terminate for convenience upon 30 days' written notice ...";
  supplier := str "Supplier may terminate for convenience; TD may terminate only for cause ...";
  deviation := str "TD termination for convenience removed.";
  devRiskLevel := Low;
  recommendation := str "Re" ++ nbHyphen ++ str "introduce TD termination for convenience right.";
  score := 1
|}.

Definition project1 : ProjectRow := {|
  id := str "1";
  username := str "TAE7758";
  projectName := str "TD NDA " ++ enDash ++ str " High & Low Changes";
  createdAt := str "2025-11-16T23:00:00Z";
  updatedAt := str "2025-11-16T23:40:00Z";
  riskLevel := Medium;
  totalWeightedScore := 2.5;
  supplierDocTitle := str "Supplier NDA.docx";
  baselineDocTitle := str "TD Baseline NDA.docx";
  supplierDocUrl := str "/api/documents/supplier-nda";
  baselineDocUrl := str "/api/documents/td-baseline-nda";
  deviations := [security; confidentiality; generalProvisions; durationTermination]
|}.

Definition project2 : ProjectRow := {|
  id := str "2";
  username := str "WYATT12";
  projectName := str "OC Demo " ++ enDash ++ str " Supplier ABC";
  createdAt := str "2025-11-14T18:20:00Z";
  updatedAt := str "2025-11-14T18:45:00Z";
  riskLevel := High;
  totalWeightedScore := 3.9;
  supplierDocTitle := str "Supplier OC.docx";
  baselineDocTitle := str "TD Baseline OC.docx";
  supplierDocUrl := str "/api/documents/supplier-oc";
  baselineDocUrl := str "/api/documents/td-baseline-oc";
  deviations := []
|}.

Definition project3 : ProjectRow := {|
  id := str "3";
  username := str "TAF7337";
  projectName := str "New Model Output Test";
  createdAt := str "2025-11-13T17:50:00Z";
  updatedAt := str "2025-11-13T18:00:00Z";
  riskLevel := Low;
  totalWeightedScore := 0.7;
  supplierDocTitle := str "Supplier Model.docx";
  baselineDocTitle := str "TD Baseline Model.docx";
  supplierDocUrl := str "/api/documents/supplier-model";
  baselineDocUrl := str "/api/documents/td-baseline-model";
  deviations := []
|}.

Definition mockProjects : list ProjectRow := [project1; project2; project3].

(** Copies of a project under other ids, and a longer list of projects made
    of them, for evaluations that need more than one page. *)
Definition copyOf (suffix : string) (p : ProjectRow) : ProjectRow := {|
  id := id p ++ str suffix;
  username := username p;
  projectName := projectName p;
  createdAt := createdAt p;
  updatedAt := updatedAt p;
  riskLevel := riskLevel p;
  totalWeightedScore := totalWeightedScore p;
  supplierDocTitle := supplierDocTitle p;
  baselineDocTitle := baselineDocTitle p;
  supplierDocUrl := supplierDocUrl p;
  baselineDocUrl := baselineDocUrl p;
  deviations := deviations p
|}.

Definition twelveProjects : list ProjectRow :=
  flat_map (fun suffix => [copyOf suffix project1; copyOf suffix project2])
           ["a"; "b"; "c"; "d"; "e"; "f"]%string.

(** A project whose creation date is not a date. *)
Definition undatedProject : ProjectRow := {|
  id := str "4";
  username := username project3;
  projectName := projectName project3;
  createdAt := str "unknown";
  updatedAt := updatedAt project3;
  riskLevel := riskLevel project3;
  totalWeightedScore := totalWeightedScore project3;
  supplierDocTitle := supplierDocTitle project3;
  baselineDocTitle := baselineDocTitle project3;
  supplierDocUrl := supplierDocUrl project3;
  baselineDocUrl := baselineDocUrl project3;
  deviations := deviations project3
|}.

(** Two more projects without a valid creation date, modified later than
    the first, and the list of the three. *)
Definition laterUndatedProject : ProjectRow := {|
  id := str "5";
  username := username project1;
  projectName := projectName project1;
  createdAt := str "n/a";
  updatedAt := str "2025-11-20T10:00:00Z";
  riskLevel := riskLevel project1;
  totalWeightedScore := totalWeightedScore project1;
  supplierDocTitle := supplierDocTitle project1;
  baselineDocTitle := baselineDocTitle project1;
  supplierDocUrl := supplierDocUrl project1;
  baselineDocUrl := baselineDocUrl project1;
  deviations := deviations project1
|}.

Definition blankDatedProject : ProjectRow := {|
  id := str "6";
  username := username project2;
  projectName := projectName project2;
  createdAt := [];
  updatedAt := str "2025-11-18T09:00:00Z";
  riskLevel := riskLevel project2;
  totalWeightedScore := totalWeightedScore project2;
  supplierDocTitle := supplierDocTitle project2;
  baselineDocTitle := baselineDocTitle project2;
  supplierDocUrl := supplierDocUrl project2;
  baselineDocUrl := baselineDocUrl project2;
  deviations := deviations project2
|}.

Definition undatedProjects : list ProjectRow :=
  [undatedProject; laterUndatedProject; blankDatedProject].

(** A clause with a score of one half, for evaluations outside the sample
    data. *)
Definition minorClause : DeviationRow := {|
  clause := str "Notices";
  baseline := str "Notices are given in writing ...";
  supplier := str "Notices may be given by e-mail ...";
  deviation := str "E-mail notice allowed.";
  devRiskLevel := Low;
  recommendation := str "Accept.";
  score := 0.5
|}.

End Sample.

(* ------------------------------------------------------------------------ *)
(** ** Deviation table + risk summary modal *)

Module DeviationModal.
Import JS.

(** [deviations.reduce((sum, d) => sum + d.score, 0) || 1] *)
Definition sumScores (deviations : list DeviationRow) : float :=
  fold_left (fun sum d => PrimFloat.add sum (score d)) deviations 0%float.

Definition totalScore (deviations : list DeviationRow) : float :=
  orElse (sumScores deviations) 1%float.

Definition riskLabel (riskLevel : RiskLevel) : jsstring :=
  match riskLevel with
  | Low => str "Low Risk" | Medium => str "Medium Risk" | High => str "High Risk"
  end.

Definition bandText (totalWeightedScore : float) : jsstring :=
  if PrimFloat.ltb totalWeightedScore 1 then str "Low: 0" ++ Sample.enDash ++ str "1"
  else if PrimFloat.ltb totalWeightedScore 3 then str "Medium: 1" ++ Sample.enDash ++ str "3"
  else str "High: 3+".

(** One row of the risk distribution card: its key and label, the score
    shown, the class of the bar and its width in percent. *)
Record Bar := {
  barClause : jsstring;
  barScore : float;
  barColour : jsstring;
  barWidth : float
}.

Definition pct (totalScore : float) (dev : DeviationRow) : float :=
  PrimFloat.mul (PrimFloat.div (score dev) totalScore) 100.

Definition colourOf (dev : DeviationRow) : jsstring :=
  if PrimFloat.leb 6 (score dev) then str "bg-red-500"
  else if PrimFloat.leb 3 (score dev) then str "bg-amber-500"
  else str "bg-emerald-500".

Definition distributionBar (totalScore : float) (dev : DeviationRow) : Bar := {|
  barClause := clause dev;
  barScore := score dev;
  barColour := colourOf dev;
  barWidth := Math_min (pct totalScore dev) 100
|}.

(** The legend under the bars names the colours. *)
Definition legendColour (tier : RiskLevel) : jsstring :=
  match tier with
  | High => str "bg-red-500" | Medium => str "bg-amber-500" | Low => str "bg-emerald-500"
  end.

(** What the modal shows. *)
Record View := {
  viewRiskLabel : jsstring;
  viewBandText : jsstring;
  viewBars : list Bar;
  viewRows : list DeviationRow
}.

(** The component: nothing when closed. *)
Definition render (open : bool) (deviations : list DeviationRow)
           (riskLevel : RiskLevel) (totalWeightedScore : float) : option View :=
  if negb open then None
  else
    let totalScore := totalScore deviations in
    Some {| viewRiskLabel := riskLabel riskLevel;
            viewBandText := bandText totalWeightedScore;
            viewBars := map (distributionBar totalScore) deviations;
            viewRows := deviations |}.

(** The tier of a score in the words of the specification. *)
Definition scoreTier (s : float) : RiskLevel :=
  if PrimFloat.leb 6 s then High else if PrimFloat.leb 3 s then Medium else Low.

End DeviationModal.

(* ------------------------------------------------------------------------ *)
(** ** Document viewer modal *)

Module DocumentViewer.
Import JS.

Definition html := jsstring.

(** What can be thrown inside the viewer's task. *)
Inductive exn :=
| FailedToFetchDOCX (status : Z)      (* the [Error] the task throws itself *)
| Rejected (reason : jsstring).        (* a rejection coming from outside *)

(** A response: [res.ok], [res.status], and what [res.arrayBuffer()]
    settles to. *)
Record Response := {
  ok : bool;
  status : Z;
  arrayBuffer : exn + list Byte.byte
}.

(** The collaborators of the task: [fetch], and [docxPreview.renderAsync],
    which writes into the container and may reject after having written. *)
Record Env := {
  fetch : jsstring -> exn + Response;
  renderAsync : list Byte.byte -> html -> html * option exn
}.

(** The task runs over the container's [innerHTML] and may throw. *)
Definition Task (A : Type) := html -> (exn + A) * html.

Definition ret {A} (a : A) : Task A := fun h => (inr a, h).
Definition throw {A} (e : exn) : Task A := fun h => (inl e, h).
Definition bind {A B} (m : Task A) (k : A -> Task B) : Task B :=
  fun h => match m h with
           | (inl e, h') => (inl e, h')
           | (inr a, h') => k a h'
           end.
Definition await {A} (r : exn + A) : Task A :=
  match r with inl e => throw e | inr a => ret a end.
Definition setInnerHTML (v : html) : Task unit := fun _ => (inr tt, v).
Definition tryCatch {A} (m : Task A) (handler : exn -> Task A) : Task A :=
  fun h => match m h with
           | (inl e, h') => handler e h'
           | r => r
           end.

Notation "x <- m ;; k" := (bind m (fun x => k))
  (at level 61, m at next level, right associativity).
Notation "m ;;; k" := (bind m (fun _ => k))
  (at level 61, right associativity).

Definition fallbackNotice : html :=
  str "<p style='color:#b91c1c;font-size:12px'>Document preview is unavailable. Please download and open locally.</p>".

(** The body of the [try] block. *)
Definition fetchAndRender (env : Env) (url : jsstring) : Task unit :=
  res <- await (fetch env url) ;;
  (if negb (ok res) then throw (FailedToFetchDOCX (status res)) else ret tt) ;;;
  buffer <- await (arrayBuffer res) ;;
  setInnerHTML [] ;;;
  (fun h => match renderAsync env buffer h with
            | (h', Some e) => (inl e, h')
            | (h', None) => (inr tt, h')
            end).

(** The whole asynchronous function: [try { ... } catch (err) { ... }]. *)
Definition task (env : Env) (url : jsstring) : Task unit :=
  tryCatch (fetchAndRender env url)
           (fun err => (* console.warn *) setInnerHTML fallbackNotice).

(** One instance of the viewer: the [open] prop it was given and the
    container it has mounted ([containerRef.current]). *)
Record Viewer := {
  open : bool;
  container : option html
}.

(** The effect run when [open] or [url] change.  It returns how the task
    settled, when one was started. *)
Definition effect (env : Env) (url : jsstring) (v : Viewer)
  : option (exn + unit) * Viewer :=
  match container v with
  | Some el =>
      if negb (open v) || negb (truthy url) then (None, v)
      else
        let '(r, el') := task env url el in
        (Some r, {| open := open v; container := Some el' |})
  | None => (None, v)
  end.

(** The ways the fetch-and-render sequence fails: the request is rejected,
    the status is not OK, the body cannot be read, or the renderer rejects
    (whatever it had written by then). *)
Inductive failure (env : Env) (url : jsstring) : Prop :=
| NetworkError e :
    fetch env url = inl e -> failure env url
| NotOkStatus res :
    fetch env url = inr res -> ok res = false -> failure env url
| BodyError res e :
    fetch env url = inr res -> ok res = true -> arrayBuffer res = inl e ->
    failure env url
| RenderException res buffer written e :
    fetch env url = inr res -> ok res = true -> arrayBuffer res = inr buffer ->
    renderAsync env buffer [] = (written, Some e) ->
    failure env url.

End DocumentViewer.

(* ------------------------------------------------------------------------ *)
(** ** The supplier-nda route handler *)

Module Route.
Import JS.

Record NextResponse := {
  body : list Byte.byte;
  status : Z;
  headers : list (jsstring * jsstring)
}.

Definition docxContentType : jsstring :=
  str "application/vnd.openxmlformats-officedocument.wordprocessingml.document".

Section Handler.
(** Node's [process.cwd], [path.join] and [fs.readFileSync]; the last one
    throws when the file cannot be read. *)
Variable cwd : jsstring.
Variable path_join : list jsstring -> jsstring.
Variable readFileSync : jsstring -> option (list Byte.byte).

Definition filePath : jsstring :=
  path_join [cwd; str "public"; str "docs"; str "supplier.docx"].

(** [None] stands for the exception of [readFileSync] leaving [GET]. *)
Definition GET : option NextResponse :=
  match readFileSync filePath with
  | None => None
  | Some fileBuffer =>
      Some {| body := fileBuffer;
              status := 200;
              headers := [(str "Content-Type", docxContentType)] |}
  end.
End Handler.

End Route.

(* ------------------------------------------------------------------------ *)
(** ** [Array.prototype.sort] with a comparator *)

Module ArraySort.

Section Sort.
Variable A : Type.
Variable comparefn : A -> A -> float.

(** The language asks for a stable sort and reads a NaN answer of the
    comparator as [+0].  For a consistent comparator every stable sort
    gives the same array; insertion from the right is one such sort, and
    it fixes the order the program gets for the comparators that are not
    consistent. *)
Definition after (x y : A) : bool := PrimFloat.ltb 0 (comparefn x y).

Fixpoint insert (x : A) (l : list A) : list A :=
  match l with
  | [] => [x]
  | y :: l' => if after x y then y :: insert x l' else x :: l
  end.

Definition sort (l : list A) : list A := fold_right insert [] l.
End Sort.

End ArraySort.

(* ------------------------------------------------------------------------ *)
(** ** Iteration tracker dashboard *)

Module Dashboard.
Import JS.
Local Open Scope Z_scope.

(** The options of the rows-per-page selector. *)
Inductive PageSizeOption := PS5 | PS10 | PS20 | PS50 | PS100.

Definition pageSizeValue (o : PageSizeOption) : Z :=
  match o with PS5 => 5 | PS10 => 10 | PS20 => 20 | PS50 => 50 | PS100 => 100 end.

(** The component's state: one field per [useState]. *)
Record State := {
  selectedProject : option ProjectRow;
  openSupplierDoc : bool;
  openBaselineDoc : bool;
  openDeviationModal : bool;
  searchTerm : jsstring;
  riskFilter : RiskFilter;
  userFilter : jsstring;
  sortKey : SortKey;
  sortDir : SortDirection;
  pageSize : Z;
  currentPage : Z
}.

(** The setters. *)
Definition setSelectedProject v (s : State) : State :=
  {| selectedProject := v; openSupplierDoc := openSupplierDoc s;
     openBaselineDoc := openBaselineDoc s; openDeviationModal := openDeviationModal s;
     searchTerm := searchTerm s; riskFilter := riskFilter s; userFilter := userFilter s;
     sortKey := sortKey s; sortDir := sortDir s; pageSize := pageSize s;
     currentPage := currentPage s |}.
Definition setOpenSupplierDoc v (s : State) : State :=
  {| selectedProject := selectedProject s; openSupplierDoc := v;
     openBaselineDoc := openBaselineDoc s; openDeviationModal := openDeviationModal s;
     searchTerm := searchTerm s; riskFilter := riskFilter s; userFilter := userFilter s;
     sortKey := sortKey s; sortDir := sortDir s; pageSize := pageSize s;
     currentPage := currentPage s |}.
Definition setOpenBaselineDoc v (s : State) : State :=
  {| selectedProject := selectedProject s; openSupplierDoc := openSupplierDoc s;
     openBaselineDoc := v; openDeviationModal := openDeviationModal s;
     searchTerm := searchTerm s; riskFilter := riskFilter s; userFilter := userFilter s;
     sortKey := sortKey s; sortDir := sortDir s; pageSize := pageSize s;
     currentPage := currentPage s |}.
Definition setOpenDeviationModal v (s : State) : State :=
  {| selectedProject := selectedProject s; openSupplierDoc := openSupplierDoc s;
     openBaselineDoc := openBaselineDoc s; openDeviationModal := v;
     searchTerm := searchTerm s; riskFilter := riskFilter s; userFilter := userFilter s;
     sortKey := sortKey s; sortDir := sortDir s; pageSize := pageSize s;
     currentPage := currentPage s |}.
Definition setSearchTerm v (s : State) : State :=
  {| selectedProject := selectedProject s; openSupplierDoc := openSupplierDoc s;
     openBaselineDoc := openBaselineDoc s; openDeviationModal := openDeviationModal s;
     searchTerm := v; riskFilter := riskFilter s; userFilter := userFilter s;
     sortKey := sortKey s; sortDir := sortDir s; pageSize := pageSize s;
     currentPage := currentPage s |}.
Definition setRiskFilter v (s : State) : State :=
  {| selectedProject := selectedProject s; openSupplierDoc := openSupplierDoc s;
     openBaselineDoc := openBaselineDoc s; openDeviationModal := openDeviationModal s;
     searchTerm := searchTerm s; riskFilter := v; userFilter := userFilter s;
     sortKey := sortKey s; sortDir := sortDir s; pageSize := pageSize s;
     currentPage := currentPage s |}.
Definition setUserFilter v (s : State) : State :=
  {| selectedProject := selectedProject s; openSupplierDoc := openSupplierDoc s;
     openBaselineDoc := openBaselineDoc s; openDeviationModal := openDeviationModal s;
     searchTerm := searchTerm s; riskFilter := riskFilter s; userFilter := v;
     sortKey := sortKey s; sortDir := sortDir s; pageSize := pageSize s;
     currentPage := currentPage s |}.
Definition setSortKey v (s : State) : State :=
  {| selectedProject := selectedProject s; openSupplierDoc := openSupplierDoc s;
     openBaselineDoc := openBaselineDoc s; openDeviationModal := openDeviationModal s;
     searchTerm := searchTerm s; riskFilter := riskFilter s; userFilter := userFilter s;
     sortKey := v; sortDir := sortDir s; pageSize := pageSize s;
     currentPage := currentPage s |}.
Definition setSortDir v (s : State) : State :=
  {| selectedProject := selectedProject s; openSupplierDoc := openSupplierDoc s;
     openBaselineDoc := openBaselineDoc s; openDeviationModal := openDeviationModal s;
     searchTerm := searchTerm s; riskFilter := riskFilter s; userFilter := userFilter s;
     sortKey := sortKey s; sortDir := v; pageSize := pageSize s;
     currentPage := currentPage s |}.
Definition setPageSize v (s : State) : State :=
  {| selectedProject := selectedProject s; openSupplierDoc := openSupplierDoc s;
     openBaselineDoc := openBaselineDoc s; openDeviationModal := openDeviationModal s;
     searchTerm := searchTerm s; riskFilter := riskFilter s; userFilter := userFilter s;
     sortKey := sortKey s; sortDir := sortDir s; pageSize := v;
     currentPage := currentPage s |}.
Definition setCurrentPage v (s : State) : State :=
  {| selectedProject := selectedProject s; openSupplierDoc := openSupplierDoc s;
     openBaselineDoc := openBaselineDoc s; openDeviationModal := openDeviationModal s;
     searchTerm := searchTerm s; riskFilter := riskFilter s; userFilter := userFilter s;
     sortKey := sortKey s; sortDir := sortDir s; pageSize := pageSize s;
     currentPage := v |}.

(** What the user can do. *)
Inductive Event :=
| ChangeSearch (value : jsstring)
| ChangeRiskFilter (value : RiskFilter)
| ChangeUserFilter (value : jsstring)
| ChangePageSize (size : PageSizeOption)
| ClickSort (key : SortKey)
| ClickPrev
| ClickNext
| ClickRow (p : ProjectRow)
| ClickSupplierDoc (p : ProjectRow)
| ClickBaselineDoc (p : ProjectRow)
| ClickRiskSummary (p : ProjectRow)
| CloseSupplierDoc
| CloseBaselineDoc
| CloseDeviationModal.

(** The four controls whose handlers call [setCurrentPage(0)]. *)
Definition changesResultSet (ev : Event) : bool :=
  match ev with
  | ChangeSearch _ | ChangeRiskFilter _ | ChangeUserFilter _ | ChangePageSize _ => true
  | _ => false
  end.

(** The clicks on a row, on its three buttons and on the close buttons of
    the modals: the handlers that set the selection or an open flag. *)
Definition touchesSelection (ev : Event) : bool :=
  match ev with
  | ClickRow _ | ClickSupplierDoc _ | ClickBaselineDoc _ | ClickRiskSummary _
  | CloseSupplierDoc | CloseBaselineDoc | CloseDeviationModal => true
  | _ => false
  end.

(** [Array.from(new Set(values))]: the distinct values, each at the place of
    its first occurrence. *)
Definition Array_from_Set (values : list jsstring) : list jsstring :=
  fold_left (fun set v => if existsb (streq v) set then set else set ++ [v])
            values [].

(** What the dashboard hands to a document viewer and to the deviation
    modal. *)
Record ViewerProps := {
  viewerOpen : bool;
  viewerTitle : jsstring;
  viewerUrl : jsstring
}.

Record DeviationProps := {
  modalOpen : bool;
  modalDeviations : list DeviationRow;
  modalRiskLevel : RiskLevel;
  modalTotalWeightedScore : float
}.

Record Modals := {
  supplierViewer : ViewerProps;
  baselineViewer : ViewerProps;
  deviationModal : DeviationProps
}.

Section Component.
(** [String.prototype.toLowerCase], [new Date(s).getTime()], and the
    module-level array of projects ([mockProjects] in the demo, to be
    replaced with data from the backend). *)
Variable toLowerCase : jsstring -> jsstring.
Variable Date_getTime : jsstring -> float.
Variable projects : list ProjectRow.

Definition initialState : State := {|
  selectedProject := hd_error projects;
  openSupplierDoc := false;
  openBaselineDoc := false;
  openDeviationModal := false;
  searchTerm := [];
  riskFilter := RF_All;
  userFilter := str "All";
  sortKey := SK_updatedAt;
  sortDir := desc;
  pageSize := 10;
  currentPage := 0
|}.

(** Filtered list *)
Definition matchesSearch (st : State) (p : ProjectRow) : bool :=
  negb (truthy (trim (searchTerm st)))
  || includes (toLowerCase (username p)) (toLowerCase (searchTerm st))
  || includes (toLowerCase (projectName p)) (toLowerCase (searchTerm st)).

Definition matchesRisk (st : State) (p : ProjectRow) : bool :=
  RiskFilter_eqb (riskFilter st) RF_All
  || RiskFilter_eqb (filterOfLevel (riskLevel p)) (riskFilter st).

Definition matchesUser (st : State) (p : ProjectRow) : bool :=
  streq (userFilter st) (str "All") || streq (username p) (userFilter st).

Definition filteredProjects (st : State) : list ProjectRow :=
  filter (fun p => matchesSearch st p && matchesRisk st p && matchesUser st p)
         projects.

(** Sorting helper *)
Definition sortValues (key : SortKey) (a b : ProjectRow) : float * float :=
  match key with
  | SK_createdAt => (Date_getTime (createdAt a), Date_getTime (createdAt b))
  | SK_updatedAt => (Date_getTime (updatedAt a), Date_getTime (updatedAt b))
  | SK_totalWeightedScore => (totalWeightedScore a, totalWeightedScore b)
  end.

Definition compareProjects (key : SortKey) (dir : SortDirection)
           (a b : ProjectRow) : float :=
  let '(aVal, bVal) := sortValues key a b in
  if isNaN aVal || isNaN bVal then 0%float
  else
    let diff := PrimFloat.sub aVal bVal in
    match dir with asc => diff | desc => PrimFloat.opp diff end.

Definition sortedProjects (st : State) : list ProjectRow :=
  ArraySort.sort (compareProjects (sortKey st) (sortDir st)) (filteredProjects st).

Definition totalPages (st : State) : Z :=
  Z.max 1 (Math_ceil_div (Z.of_nat (List.length (sortedProjects st))) (pageSize st)).

Definition safePage (st : State) : Z := Z.min (currentPage st) (totalPages st - 1).

Definition startIndex (st : State) : Z := safePage st * pageSize st.

Definition paginatedProjects (st : State) : list ProjectRow :=
  slice (sortedProjects st) (startIndex st) (startIndex st + pageSize st).

(** Ensure page index is valid when page count shrinks *)
Definition clampEffect (st : State) : State :=
  if currentPage st >? totalPages st - 1
  then setCurrentPage (totalPages st - 1) st
  else st.

Definition handleSort (key : SortKey) (st : State) : State :=
  if SortKey_eqb (sortKey st) key
  then setSortDir (match sortDir st with asc => desc | desc => asc end) st
  else setSortDir desc (setSortKey key st).

(** The handlers.  A disabled Prev or Next button does not fire. *)
Definition handle (ev : Event) (st : State) : State :=
  match ev with
  | ChangeSearch v => setCurrentPage 0 (setSearchTerm v st)
  | ChangeRiskFilter v => setCurrentPage 0 (setRiskFilter v st)
  | ChangeUserFilter v => setCurrentPage 0 (setUserFilter v st)
  | ChangePageSize o => setCurrentPage 0 (setPageSize (pageSizeValue o) st)
  | ClickSort key => handleSort key st
  | ClickPrev =>
      if safePage st =? 0 then st
      else setCurrentPage (Z.max 0 (currentPage st - 1)) st
  | ClickNext =>
      if safePage st >=? totalPages st - 1 then st
      else setCurrentPage (Z.min (totalPages st - 1) (currentPage st + 1)) st
  | ClickRow p => setSelectedProject (Some p) st
  | ClickSupplierDoc p => setOpenSupplierDoc true (setSelectedProject (Some p) st)
  | ClickBaselineDoc p => setOpenBaselineDoc true (setSelectedProject (Some p) st)
  | ClickRiskSummary p => setOpenDeviationModal true (setSelectedProject (Some p) st)
  | CloseSupplierDoc => setOpenSupplierDoc false st
  | CloseBaselineDoc => setOpenBaselineDoc false st
  | CloseDeviationModal => setOpenDeviationModal false st
  end.

(** One interaction: the handler, then the effect on the new render. *)
Definition step (ev : Event) (st : State) : State := clampEffect (handle ev st).

Definition run (evs : list Event) (st : State) : State :=
  fold_left (fun s ev => step ev s) evs st.

Inductive reachable : State -> Prop :=
| reach_init : reachable initialState
| reach_step st ev : reachable st -> reachable (step ev st).

(** [selectedProject ?? mockProjects[0]] *)
Definition current (st : State) : option ProjectRow :=
  match selectedProject st with
  | Some p => Some p
  | None => hd_error projects
  end.

(** Unique usernames for filter dropdown *)
Definition uniqueUsers : list jsstring := Array_from_Set (map username projects).

(** The [disabled] attributes of the Prev and Next buttons. *)
Definition prevDisabled (st : State) : bool := safePage st =? 0.
Definition nextDisabled (st : State) : bool := safePage st >=? totalPages st - 1.

(** The two numbers of the label [Page x of y]. *)
Definition pageLabel (st : State) : Z * Z :=
  (if totalPages st =? 0 then 0 else safePage st + 1, totalPages st).

(** Whether the row [No projects match your filters.] is rendered. *)
Definition showsNoMatchRow (st : State) : bool :=
  Nat.eqb (List.length (paginatedProjects st)) 0.

(** The modals, rendered only when there is a current project. *)
Definition modals (st : State) : option Modals :=
  match current st with
  | None => None
  | Some c =>
      Some {| supplierViewer :=
                {| viewerOpen := openSupplierDoc st;
                   viewerTitle := supplierDocTitle c;
                   viewerUrl := supplierDocUrl c |};
              baselineViewer :=
                {| viewerOpen := openBaselineDoc st;
                   viewerTitle := baselineDocTitle c;
                   viewerUrl := baselineDocUrl c |};
              deviationModal :=
                {| modalOpen := openDeviationModal st;
                   modalDeviations := deviations c;
                   modalRiskLevel := riskLevel c;
                   modalTotalWeightedScore := totalWeightedScore c |} |}
  end.

(** In the words of the specification: the term is a case-insensitive
    substring of [s] when its lower-casing occurs in the lower-casing of
    [s]. *)
Definition caseInsensitiveSubstring (term s : jsstring) : Prop :=
  exists pre post, toLowerCase s = pre ++ toLowerCase term ++ post.

(** The date string a date sort key reads; the score key reads none. *)
Definition dateField (key : SortKey) : option (ProjectRow -> jsstring) :=
  match key with
  | SK_createdAt => Some createdAt
  | SK_updatedAt => Some updatedAt
  | SK_totalWeightedScore => None
  end.

End Component.

End Dashboard.

(* ------------------------------------------------------------------------ *)
(** ** An instance of the date parser *)

(** [new Date(s).getTime()] for the one form the sample data uses, the
    date-time form [YYYY-MM-DDTHH:mm:ssZ] of the language's own date format:
    the milliseconds since the epoch for a valid UTC date and time, NaN for
    every other string.  It serves where a statement is evaluated on concrete
    data; the general statements are about any parser. *)
Module IsoDate.
Import JS.
Local Open Scope Z_scope.

Definition digit (c : codeunit) : option Z :=
  if ((48 <=? c) && (c <=? 57))%N then Some (Z.of_N c - 48) else None.

Fixpoint number (acc : Z) (s : jsstring) : option Z :=
  match s with
  | [] => Some acc
  | c :: s' =>
      match digit c with
      | Some d => number (10 * acc + d) s'
      | None => None
      end
  end.

Definition isLeap (y : Z) : bool :=
  (y mod 4 =? 0) && (negb (y mod 100 =? 0) || (y mod 400 =? 0)).

Definition daysInMonth (y m : Z) : Z :=
  if m =? 2 then (if isLeap y then 29 else 28)
  else if (m =? 4) || (m =? 6) || (m =? 9) || (m =? 11) then 30
  else 31.

(** Days between 1970-01-01 and the given day of the proleptic Gregorian
    calendar, counting years from March. *)
Definition daysFromCivil (y m d : Z) : Z :=
  let y' := if m <=? 2 then y - 1 else y in
  let era := y' / 400 in
  let yoe := y' - era * 400 in
  let mp := if m >? 2 then m - 3 else m + 9 in
  let doy := (153 * mp + 2) / 5 + d - 1 in
  let doe := yoe * 365 + yoe / 4 - yoe / 100 + doy in
  era * 146097 + doe - 719468.

(** An integer as a number; exact below 2^53. *)
Fixpoint floatOfPositive (p : positive) : float :=
  match p with
  | xH => 1%float
  | xO q => PrimFloat.mul 2 (floatOfPositive q)
  | xI q => PrimFloat.add (PrimFloat.mul 2 (floatOfPositive q)) 1
  end.

Definition floatOfZ (z : Z) : float :=
  match z with
  | Z0 => 0%float
  | Zpos p => floatOfPositive p
  | Zneg p => PrimFloat.opp (floatOfPositive p)
  end.

Definition timeValue (y mo d h mi s : Z) : float :=
  if (1 <=? mo) && (mo <=? 12) && (1 <=? d) && (d <=? daysInMonth y mo)
     && (h <=? 23) && (mi <=? 59) && (s <=? 59)
  then floatOfZ ((((daysFromCivil y mo d * 24 + h) * 60 + mi) * 60 + s) * 1000)
  else PrimFloat.nan.

Definition getTime (iso : jsstring) : float :=
  match iso with
  | [y1; y2; y3; y4; sep1; m1; m2; sep2; d1; d2; t; h1; h2; sep3; i1; i2; sep4; s1; s2; z] =>
      if ((sep1 =? 45) && (sep2 =? 45) && (t =? 84) && (sep3 =? 58)
          && (sep4 =? 58) && (z =? 90))%N
      then
        match number 0 [y1; y2; y3; y4], number 0 [m1; m2], number 0 [d1; d2],
              number 0 [h1; h2], number 0 [i1; i2], number 0 [s1; s2] with
        | Some y, Some mo, Some d, Some h, Some mi, Some s => timeValue y mo d h mi s
        | _, _, _, _, _, _ => PrimFloat.nan
        end
      else PrimFloat.nan
  | _ => PrimFloat.nan
  end.

End IsoDate.

(* ------------------------------------------------------------------------ *)
(** ** Scenarios *)

(** The concrete collaborators and states the statements are evaluated on. *)
Module Scenario.
Import JS.

(** The dashboard over the sample data, with the lower-casing of A to Z and
    the date instance. *)
Definition sampleStep := Dashboard.step toLowerCaseASCII IsoDate.getTime Sample.mockProjects.
Definition sampleInitial := Dashboard.initialState Sample.mockProjects.

(** High risk selected, then a search for a word no project contains. *)
Definition highRiskNoMatch : Dashboard.State :=
  Dashboard.run toLowerCaseASCII IsoDate.getTime Sample.mockProjects
    [Dashboard.ChangeRiskFilter RF_High; Dashboard.ChangeSearch (str "zzz")]
    sampleInitial.

(** High risk selected on the initial dashboard. *)
Definition highRisk : Dashboard.State :=
  sampleStep (Dashboard.ChangeRiskFilter RF_High) sampleInitial.

(** Twelve projects, five rows per page, the third page shown. *)
Definition thirdPage : Dashboard.State :=
  Dashboard.run toLowerCaseASCII IsoDate.getTime Sample.twelveProjects
    [Dashboard.ChangePageSize Dashboard.PS5; Dashboard.ClickNext; Dashboard.ClickNext]
    (Dashboard.initialState Sample.twelveProjects).

(** Three projects without a valid creation date, sorted by creation date:
    descending after one click on the header, ascending after two. *)
Definition undatedByCreation : Dashboard.State :=
  Dashboard.step toLowerCaseASCII IsoDate.getTime Sample.undatedProjects
    (Dashboard.ClickSort SK_createdAt)
    (Dashboard.initialState Sample.undatedProjects).

Definition undatedByCreationAscending : Dashboard.State :=
  Dashboard.step toLowerCaseASCII IsoDate.getTime Sample.undatedProjects
    (Dashboard.ClickSort SK_createdAt) undatedByCreation.

(** Twelve projects, five rows per page, the second page shown. *)
Definition secondPage : Dashboard.State :=
  Dashboard.run toLowerCaseASCII IsoDate.getTime Sample.twelveProjects
    [Dashboard.ChangePageSize Dashboard.PS5; Dashboard.ClickNext]
    (Dashboard.initialState Sample.twelveProjects).

(** A server that answers 404 to every request, and a renderer that is
    never reached. *)
Definition notFound : DocumentViewer.Env := {|
  DocumentViewer.fetch := fun _ =>
    inr {| DocumentViewer.ok := false;
           DocumentViewer.status := 404;
           DocumentViewer.arrayBuffer := inr [] |};
  DocumentViewer.renderAsync := fun _ el => (el, None)
|}.


(** [path.join] on a POSIX system, for segments that need no normalising. *)
Fixpoint posixJoin (segments : list jsstring) : jsstring :=
  match segments with
  | [] => str "."
  | [s] => s
  | s :: rest => s ++ str "/" ++ posixJoin rest
  end.

(** A disk holding one file. *)
Definition diskWith (path : jsstring) (content : list Byte.byte)
  : jsstring -> option (list Byte.byte) :=
  fun p => if streq p path then Some content else None.

Definition docxBytes : list Byte.byte := [Byte.x50; Byte.x4b; Byte.x03; Byte.x04].

End Scenario.

(* ------------------------------------------------------------------------ *)
(** * Properties *)

(** ** The deviation / risk summary modal *)

Module DeviationModalFacts.
Import JS DeviationModal.

Lemma float_neq_by (f : float -> bool) (x y : float) :
  f x <> f y -> x <> y.
Proof. intros Hf Heq. apply Hf. now rewrite Heq. Qed.

(** A number above zero is truthy: it is neither a zero nor NaN. *)
Lemma positive_number_truthy (x : float) :
  PrimFloat.ltb 0 x = true -> falsyNumber x = false.
Proof.
  unfold falsyNumber, PrimFloat.is_zero, PrimFloat.is_nan.
  rewrite ltb_spec, !eqb_spec. unfold SFltb, SFeqb.
  change (Prim2SF 0) with (S754_zero false).
  destruct (Prim2SF x) as [sg | sg | | sg m e]; simpl; try discriminate.
  - destruct sg; [discriminate | reflexivity].
  - destruct sg; [discriminate|].
    now rewrite Z.compare_refl, Pos.compare_refl.
Qed.

Lemma render_open deviations riskLevel tws :
  render true deviations riskLevel tws =
  Some {| viewRiskLabel := riskLabel riskLevel;
          viewBandText := bandText tws;
          viewBars := map (distributionBar (totalScore deviations)) deviations;
          viewRows := deviations |}.
Proof. reflexivity. Qed.

Lemma colourOf_tier dev : colourOf dev = legendColour (scoreTier (score dev)).
Proof.
  unfold colourOf, scoreTier.
  destruct (PrimFloat.leb 6 (score dev)); [reflexivity|].
  destruct (PrimFloat.leb 3 (score dev)); reflexivity.
Qed.

(** C3, as stated, fails: a single clause of score 0.5 has a sum strictly
    between 0 and 1, and the total score is that sum, 0.5, where the claim
    puts max(1, sum) = 1. *)
Lemma totalScore_floor_counterexample :
  let devs := [Sample.minorClause] in
  PrimFloat.ltb 0 (sumScores devs) = true
  /\ PrimFloat.ltb (sumScores devs) 1 = true
  /\ totalScore devs = 0.5%float
  /\ totalScore devs <> 1%float
  /\ totalScore devs <> Math_max 1 (sumScores devs).
Proof.
  cbv zeta. repeat split; try (vm_compute; reflexivity).
  - apply (float_neq_by (fun x => PrimFloat.ltb x 1)). vm_compute. discriminate.
  - apply (float_neq_by (fun x => PrimFloat.ltb x 1)). vm_compute. discriminate.
Qed.

(** C3, amended: the total score is the sum of the scores, replaced by 1
    exactly when that sum is falsy (zero or NaN); a positive sum, also one
    below 1, is kept as it is; the empty list has sum 0, so its total score
    is 1, and the open modal renders no distribution row for it. *)
Theorem totalScore_default_when_zero :
  (forall deviations,
      totalScore deviations =
      if PrimFloat.is_zero (sumScores deviations) || PrimFloat.is_nan (sumScores deviations)
      then 1%float else sumScores deviations)
  /\ (forall deviations,
         PrimFloat.ltb 0 (sumScores deviations) = true ->
         totalScore deviations = sumScores deviations)
  /\ (forall deviations d,
         sumScores (deviations ++ [d]) = PrimFloat.add (sumScores deviations) (score d))
  /\ sumScores [] = 0%float
  /\ totalScore [] = 1%float
  /\ (forall riskLevel tws,
         option_map viewBars (render true [] riskLevel tws) = Some []).
Proof.
  split; [reflexivity|]. split; [|split; [|repeat split]].
  - intros deviations Hpos. unfold totalScore, orElse.
    now rewrite (positive_number_truthy Hpos).
  - intros deviations d. unfold sumScores. now rewrite fold_left_app.
Qed.

Lemma totalScore_default_when_zero_witness :
  PrimFloat.ltb 0 (sumScores [Sample.minorClause]) = true
  /\ totalScore [Sample.minorClause] = sumScores [Sample.minorClause].
Proof.
  assert (Hpos : PrimFloat.ltb 0 (sumScores [Sample.minorClause]) = true)
    by (vm_compute; reflexivity).
  split; [exact Hpos|].
  exact (proj1 (proj2 totalScore_default_when_zero) [Sample.minorClause] Hpos).
Defined.

(** C6: every bar of the distribution card has the width
    min(score / totalScore * 100, 100) and the colour the legend gives to
    the tier of its score (high from 6, medium from 3, low below); for the
    four sample deviations of project 1 the Security bar has the width
    6 / 13 * 100, which is 46.15 to two decimals, and the high-risk
    colour. *)
Theorem distribution_bar_width_and_tier :
  (forall deviations riskLevel tws,
      option_map viewBars (render true deviations riskLevel tws) =
      Some (map (fun dev =>
                   {| barClause := clause dev;
                      barScore := score dev;
                      barColour := legendColour (scoreTier (score dev));
                      barWidth :=
                        Math_min (PrimFloat.mul
                                    (PrimFloat.div (score dev) (totalScore deviations)) 100)
                                 100 |})
                deviations))
  /\ (let p := Sample.project1 in
      exists bar rest,
        option_map viewBars
          (render true (deviations p) (riskLevel p) (totalWeightedScore p))
        = Some (bar :: rest)
        /\ List.length rest = 3%nat
        /\ barClause bar = str "Security"
        /\ barScore bar = 6%float
        /\ totalScore (deviations p) = 13%float
        /\ barWidth bar = PrimFloat.mul (PrimFloat.div 6 13) 100
        /\ PrimFloat.leb 46.145 (barWidth bar) = true
        /\ PrimFloat.ltb (barWidth bar) 46.155 = true
        /\ scoreTier (barScore bar) = High
        /\ barColour bar = str "bg-red-500").
Proof.
  split.
  - intros deviations riskLevel tws. rewrite render_open. cbn [option_map viewBars].
    f_equal. apply map_ext. intro dev. unfold distributionBar, pct.
    now rewrite colourOf_tier.
  - cbv zeta. eexists. eexists. split; [reflexivity|].
    repeat split; vm_compute; reflexivity.
Qed.

End DeviationModalFacts.

(* ------------------------------------------------------------------------ *)
(** ** Strings, arrays and counts *)

Module JSFacts.
Import JS.

Lemma streq_eq a b : streq a b = true <-> a = b.
Proof.
  revert b. induction a as [|x a IH]; intros [|y b]; simpl; split;
    try congruence; try discriminate.
  - intros H. apply andb_true_iff in H as [Hx Hab].
    apply N.eqb_eq in Hx. apply IH in Hab. now subst.
  - intros H. injection H as -> ->. apply andb_true_iff. split.
    + apply N.eqb_refl.
    + now apply IH.
Qed.

Lemma startsWith_prefix s pat :
  startsWith s pat = true <-> exists post, s = pat ++ post.
Proof.
  revert s. induction pat as [|p pat IH]; intros s.
  - destruct s; simpl; split; eauto.
  - destruct s as [|c s]; simpl.
    + split; [discriminate | intros [post H]; discriminate].
    + rewrite andb_true_iff, N.eqb_eq, IH. split.
      * intros [-> [post ->]]. now exists post.
      * intros [post H]. injection H as -> ->. eauto.
Qed.

(** [includes] finds exactly the occurrences of the pattern. *)
Lemma includes_occurs s pat :
  includes s pat = true <-> exists pre post, s = pre ++ pat ++ post.
Proof.
  induction s as [|c s IH].
  - cbn [includes]. rewrite orb_false_r, startsWith_prefix. split.
    + intros [post H]. now exists [], post.
    + intros [pre [post H]]. destruct pre as [|x pre]; [|discriminate].
      now exists post.
  - cbn [includes]. rewrite orb_true_iff, startsWith_prefix, IH. split.
    + intros [[post H] | [pre [post H]]].
      * now exists [], post.
      * exists (c :: pre), post. now rewrite H.
    + intros [pre [post H]]. destruct pre as [|x pre].
      * left. now exists post.
      * right. injection H as -> ->. now exists pre, post.
Qed.

Lemma trimStart_nil s : trimStart s = [] <-> forallb isWhiteSpace s = true.
Proof.
  induction s as [|c s IH]; simpl.
  - tauto.
  - destruct (isWhiteSpace c); simpl; [exact IH|].
    split; discriminate.
Qed.

(** A string trims to the empty string exactly when it holds nothing but
    white space. *)
Lemma trim_nil s : trim s = [] <-> forallb isWhiteSpace s = true.
Proof.
  unfold trim, trimEnd. split.
  - intros H. apply (f_equal (@rev codeunit)) in H.
    rewrite rev_involutive in H. simpl in H.
    apply trimStart_nil in H. rewrite forallb_forall in H.
    assert (Hn : trimStart s = []).
    { destruct (trimStart s) as [|c t] eqn:E; [reflexivity|].
      assert (Hc : isWhiteSpace c = true).
      { apply H. apply in_rev. rewrite rev_involutive. now left. }
      clear H. exfalso. revert E Hc. clear.
      induction s as [|x s IH]; simpl; [discriminate|].
      destruct (isWhiteSpace x) eqn:Ex; [exact IH|].
      intros E Hc. injection E as -> _. congruence. }
    now apply trimStart_nil.
  - intros H. apply trimStart_nil in H. now rewrite H.
Qed.

Lemma truthy_false s : truthy s = false <-> s = [].
Proof. destruct s; simpl; split; congruence. Qed.

Section SortLength.
Variable A : Type.
Variable comparefn : A -> A -> float.

Lemma insert_length x l :
  List.length (ArraySort.insert comparefn x l) = S (List.length l).
Proof.
  induction l as [|y l IH]; simpl; [reflexivity|].
  destruct (ArraySort.after comparefn x y); simpl; congruence.
Qed.

(** Sorting keeps every element. *)
Lemma sort_length l : List.length (ArraySort.sort comparefn l) = List.length l.
Proof.
  unfold ArraySort.sort.
  induction l as [|x l IH]; cbn [fold_right]; [reflexivity|].
  rewrite insert_length, IH. reflexivity.
Qed.

Lemma sort_nil : ArraySort.sort comparefn [] = [].
Proof. reflexivity. Qed.

Lemma sort_singleton x : ArraySort.sort comparefn [x] = [x].
Proof. reflexivity. Qed.
End SortLength.

Local Open Scope Z_scope.

(** The ceiling of a quotient of a count by a positive integer. *)
Lemma Math_ceil_div_bounds a b :
  0 < b -> (Math_ceil_div a b - 1) * b < a <= Math_ceil_div a b * b.
Proof.
  intros Hb. unfold Math_ceil_div, Qceiling, Qfloor.
  destruct b as [|p|p]; try lia.
  unfold Qdiv, Qinv, Qmult, Qopp, inject_Z. cbn [Qnum Qden].
  rewrite Z.mul_1_r, Pos.mul_1_l.
  pose proof (Z.div_mod (- a) (Z.pos p) ltac:(lia)) as Hdm.
  pose proof (Z.mod_pos_bound (- a) (Z.pos p) ltac:(lia)) as Hm.
  nia.
Qed.

Lemma Math_ceil_div_unique a b k :
  0 < b -> (k - 1) * b < a <= k * b -> Math_ceil_div a b = k.
Proof.
  intros Hb Hk. pose proof (Math_ceil_div_bounds a Hb) as Hc. nia.
Qed.

Lemma slice_length_le A (arr : list A) s n :
  0 <= n -> Z.of_nat (List.length (slice arr s (s + n))) <= n.
Proof.
  intros Hn. unfold slice.
  pose proof (firstn_le_length
                (Z.to_nat (Z.max (relIndex (Z.of_nat (List.length arr)) (s + n)
                                  - relIndex (Z.of_nat (List.length arr)) s) 0))
                (skipn (Z.to_nat (relIndex (Z.of_nat (List.length arr)) s)) arr)) as H.
  revert H. set (len := Z.of_nat (List.length arr)).
  assert (0 <= len) by (unfold len; lia).
  unfold relIndex.
  destruct (s + n <? 0) eqn:E1; destruct (s <? 0) eqn:E2;
    rewrite ?Z.ltb_lt, ?Z.ltb_ge in *; lia.
Qed.

Lemma slice_from_zero A (arr : list A) n :
  0 <= n -> slice arr 0 n = firstn (Z.to_nat n) arr.
Proof.
  intros Hn. unfold slice, relIndex.
  replace (0 <? 0) with false by reflexivity.
  assert ((n <? 0) = false) as -> by (apply Z.ltb_ge; lia).
  rewrite (Z.min_l 0) by lia. cbn [Z.to_nat skipn]. rewrite Z.sub_0_r.
  destruct (Z.min_spec n (Z.of_nat (List.length arr))) as [[Hlt ->] | [Hge ->]].
  - now rewrite Z.max_l by lia.
  - rewrite Z.max_l by lia. rewrite Nat2Z.id.
    rewrite firstn_all. symmetry. apply firstn_all2. lia.
Qed.

End JSFacts.

(* ------------------------------------------------------------------------ *)
(** ** The project table: filter, sort, pagination *)

Module DashboardFacts.
Import JS Dashboard JSFacts.
Local Open Scope Z_scope.

Ltac fields :=
  cbn [selectedProject openSupplierDoc openBaselineDoc openDeviationModal
       searchTerm riskFilter userFilter sortKey sortDir pageSize currentPage
       setSelectedProject setOpenSupplierDoc setOpenBaselineDoc
       setOpenDeviationModal setSearchTerm setRiskFilter setUserFilter
       setSortKey setSortDir setPageSize setCurrentPage] in *.

Lemma RiskFilter_eqb_eq a b : RiskFilter_eqb a b = true <-> a = b.
Proof. destruct a, b; simpl; split; congruence. Qed.

Lemma pageSizeValue_pos o : 0 < pageSizeValue o.
Proof. destruct o; simpl; lia. Qed.

Section Component.
Variable toLowerCase : jsstring -> jsstring.
Variable Date_getTime : jsstring -> float.
Variable projects : list ProjectRow.

Local Abbreviation filteredProjects := (filteredProjects toLowerCase projects).
Local Abbreviation sortedProjects := (sortedProjects toLowerCase Date_getTime projects).
Local Abbreviation totalPages := (totalPages toLowerCase Date_getTime projects).
Local Abbreviation safePage := (safePage toLowerCase Date_getTime projects).
Local Abbreviation startIndex := (startIndex toLowerCase Date_getTime projects).
Local Abbreviation paginatedProjects := (paginatedProjects toLowerCase Date_getTime projects).
Local Abbreviation clampEffect := (clampEffect toLowerCase Date_getTime projects).
Local Abbreviation handle := (handle toLowerCase Date_getTime projects).
Local Abbreviation step := (step toLowerCase Date_getTime projects).
Local Abbreviation reachable := (reachable toLowerCase Date_getTime projects).
Local Abbreviation matchesSearch := (matchesSearch toLowerCase).
Local Abbreviation caseInsensitiveSubstring := (caseInsensitiveSubstring toLowerCase).

Lemma matchesSearch_spec st p :
  matchesSearch st p = true <->
  trim (searchTerm st) = []
  \/ caseInsensitiveSubstring (searchTerm st) (username p)
  \/ caseInsensitiveSubstring (searchTerm st) (projectName p).
Proof.
  unfold Dashboard.matchesSearch, Dashboard.caseInsensitiveSubstring.
  rewrite !orb_true_iff, negb_true_iff, truthy_false, !includes_occurs. tauto.
Qed.

Lemma matchesRisk_spec st p :
  matchesRisk st p = true <->
  riskFilter st = RF_All \/ riskFilter st = filterOfLevel (riskLevel p).
Proof.
  unfold matchesRisk. rewrite orb_true_iff, !RiskFilter_eqb_eq.
  split; (intros [H | H]; [now left | right; congruence]).
Qed.

Lemma matchesUser_spec st p :
  matchesUser st p = true <->
  userFilter st = str "All" \/ userFilter st = username p.
Proof.
  unfold matchesUser. rewrite orb_true_iff, !streq_eq.
  split; (intros [H | H]; [now left | right; congruence]).
Qed.

(** C4: a project is in the filtered list exactly when it is one of the
    projects and passes the three predicates together: the search term trims
    to the empty string or is a case-insensitive substring of the username or
    of the project name; the risk filter is All or the project's risk level;
    the user filter is All or the project's username. *)
Theorem filteredProjects_conjunctive st p :
  In p (filteredProjects st) <->
  In p projects
  /\ (trim (searchTerm st) = []
      \/ caseInsensitiveSubstring (searchTerm st) (username p)
      \/ caseInsensitiveSubstring (searchTerm st) (projectName p))
  /\ (riskFilter st = RF_All \/ riskFilter st = filterOfLevel (riskLevel p))
  /\ (userFilter st = str "All" \/ userFilter st = username p).
Proof.
  unfold Dashboard.filteredProjects.
  rewrite filter_In, !andb_true_iff, matchesSearch_spec, matchesRisk_spec,
    matchesUser_spec.
  tauto.
Qed.

(** *** Counting pages *)

Lemma sortedProjects_length st :
  List.length (sortedProjects st) = List.length (filteredProjects st).
Proof. unfold Dashboard.sortedProjects. apply sort_length. Qed.

Lemma totalPages_ge_1 st : 1 <= totalPages st.
Proof. unfold Dashboard.totalPages. lia. Qed.

Lemma totalPages_setCurrentPage v st : totalPages (setCurrentPage v st) = totalPages st.
Proof. reflexivity. Qed.

(** C5: whatever the filters, the sort and a positive page size, the page
    shows at most [pageSize] rows, and the page count is max(1, k) for the
    ceiling k of filteredCount / pageSize, the integer with
    k - 1 < filteredCount / pageSize <= k. *)
Theorem page_rows_and_count st k :
  0 < pageSize st ->
  (k - 1) * pageSize st < Z.of_nat (List.length (filteredProjects st)) <= k * pageSize st ->
  Z.of_nat (List.length (paginatedProjects st)) <= pageSize st
  /\ totalPages st = Z.max 1 k.
Proof.
  intros Hps Hk. split.
  - unfold Dashboard.paginatedProjects. apply slice_length_le. lia.
  - unfold Dashboard.totalPages. rewrite sortedProjects_length.
    now rewrite (@Math_ceil_div_unique _ _ k Hps Hk).
Qed.

(** *** The comparator *)

(** C8: under a date sort key, when the date string of either project does
    not parse (its time value is NaN), the comparator answers 0, in both
    directions. *)
Theorem compare_invalid_dates_equal key dir field a b :
  dateField key = Some field ->
  isNaN (Date_getTime (field a)) = true \/ isNaN (Date_getTime (field b)) = true ->
  compareProjects Date_getTime key dir a b = 0%float.
Proof.
  intros Hkey Hnan. unfold compareProjects.
  destruct key; cbn [dateField] in Hkey; try discriminate;
    injection Hkey as <-; cbn [sortValues];
    destruct Hnan as [-> | ->]; rewrite ?orb_true_r; reflexivity.
Qed.

(** *** The page index *)

Lemma filteredProjects_handleSort key st :
  filteredProjects (handleSort key st) = filteredProjects st.
Proof. unfold handleSort. destruct (SortKey_eqb (sortKey st) key); reflexivity. Qed.

Lemma totalPages_handleSort key st : totalPages (handleSort key st) = totalPages st.
Proof.
  unfold Dashboard.totalPages. rewrite !sortedProjects_length, filteredProjects_handleSort.
  unfold handleSort. destruct (SortKey_eqb (sortKey st) key); reflexivity.
Qed.

Lemma handle_pageSize_pos ev st : 0 < pageSize st -> 0 < pageSize (handle ev st).
Proof.
  intros H. destruct ev; cbn [Dashboard.handle]; fields; try assumption.
  - apply pageSizeValue_pos.
  - unfold handleSort. now destruct (SortKey_eqb (sortKey st) key).
  - now destruct (safePage st =? 0).
  - now destruct (safePage st >=? totalPages st - 1).
Qed.

Lemma handle_currentPage_nonneg ev st :
  0 <= currentPage st -> 0 <= currentPage (handle ev st).
Proof.
  intros H. destruct ev; cbn [Dashboard.handle]; fields; try assumption; try lia.
  - unfold handleSort. now destruct (SortKey_eqb (sortKey st) key).
  - destruct (safePage st =? 0); fields; lia.
  - pose proof (totalPages_ge_1 st).
    destruct (safePage st >=? totalPages st - 1); fields; lia.
Qed.

(** The handlers of the four controls leave the page index at 0. *)
Lemma handle_resets_page ev st :
  changesResultSet ev = true -> currentPage (handle ev st) = 0.
Proof. destruct ev; cbn [changesResultSet]; try discriminate; reflexivity. Qed.

Lemma clampEffect_pageSize st : pageSize (clampEffect st) = pageSize st.
Proof.
  unfold Dashboard.clampEffect. now destruct (currentPage st >? totalPages st - 1).
Qed.

Lemma clampEffect_totalPages st : totalPages (clampEffect st) = totalPages st.
Proof.
  unfold Dashboard.clampEffect. now destruct (currentPage st >? totalPages st - 1).
Qed.

(** The effect is the clamp of the page index to the last page. *)
Lemma clampEffect_currentPage st :
  currentPage (clampEffect st) = Z.min (currentPage st) (totalPages st - 1).
Proof.
  unfold Dashboard.clampEffect.
  destruct (currentPage st >? totalPages st - 1) eqn:E; fields.
  - apply Z.gtb_lt in E. lia.
  - rewrite Z.gtb_ltb in E. apply Z.ltb_ge in E. lia.
Qed.

(** Once it has run, the effect has nothing left to do. *)
Lemma clampEffect_idempotent st : clampEffect (clampEffect st) = clampEffect st.
Proof.
  unfold Dashboard.clampEffect at 1.
  rewrite clampEffect_totalPages, clampEffect_currentPage.
  destruct (Z.min (currentPage st) (totalPages st - 1) >? totalPages st - 1) eqn:E;
    [|reflexivity].
  apply Z.gtb_lt in E. lia.
Qed.

Lemma step_resets_page ev st :
  changesResultSet ev = true -> currentPage (step ev st) = 0.
Proof.
  intros H. unfold Dashboard.step. rewrite clampEffect_currentPage.
  fold (handle ev st). rewrite (handle_resets_page _ st H).
  pose proof (totalPages_ge_1 (handle ev st)). lia.
Qed.

(** In every state the dashboard can reach, the page size is positive and
    the page index is one of the pages. *)
Lemma reachable_page_in_range st :
  reachable st ->
  0 < pageSize st /\ 0 <= currentPage st <= totalPages st - 1.
Proof.
  induction 1 as [|st ev Hr [Hps Hcp]].
  - split; [reflexivity|]. cbn [currentPage initialState].
    pose proof (totalPages_ge_1 (initialState projects)). lia.
  - unfold Dashboard.step. fold (handle ev st).
    rewrite clampEffect_pageSize, clampEffect_totalPages, clampEffect_currentPage.
    split; [now apply handle_pageSize_pos|].
    pose proof (handle_currentPage_nonneg ev st (proj1 Hcp)).
    pose proof (totalPages_ge_1 (handle ev st)). lia.
Qed.

(** After the handler of one of the four controls the effect has nothing to
    do: the page index 0 is a page of every result. *)
Lemma step_result_set_change ev st :
  changesResultSet ev = true -> step ev st = handle ev st.
Proof.
  intros Hev. unfold Dashboard.step, Dashboard.clampEffect. fold (handle ev st).
  rewrite (handle_resets_page _ st Hev).
  pose proof (totalPages_ge_1 (handle ev st)) as Htp.
  assert ((0 >? totalPages (handle ev st) - 1) = false) as ->; [|reflexivity].
  rewrite Z.gtb_ltb. apply Z.ltb_ge. lia.
Qed.


(** C10: from every state, a change of the search term, of the risk
    filter, of the user filter or of the page size stores the new value and
    sets the page index to 0, whatever the index and the page count were
    (it is a reset, not a clamp to the new last page), and changes nothing
    else; the page shown is then the first page: with a positive page size,
    the first [pageSize] rows of the new sorted result. *)
Theorem result_set_change_shows_first_page st :
  (forall v, step (ChangeSearch v) st = setCurrentPage 0 (setSearchTerm v st))
  /\ (forall v, step (ChangeRiskFilter v) st = setCurrentPage 0 (setRiskFilter v st))
  /\ (forall v, step (ChangeUserFilter v) st = setCurrentPage 0 (setUserFilter v st))
  /\ (forall o, step (ChangePageSize o) st
                = setCurrentPage 0 (setPageSize (pageSizeValue o) st))
  /\ (forall ev, changesResultSet ev = true ->
                 currentPage (step ev st) = 0 /\ safePage (step ev st) = 0)
  /\ (forall o, paginatedProjects (step (ChangePageSize o) st)
                = firstn (Z.to_nat (pageSizeValue o))
                         (sortedProjects (step (ChangePageSize o) st)))
  /\ (forall ev, changesResultSet ev = true -> 0 < pageSize st ->
                 paginatedProjects (step ev st)
                 = firstn (Z.to_nat (pageSize (step ev st)))
                          (sortedProjects (step ev st))).
Proof.
  assert (Hzero : forall ev, changesResultSet ev = true ->
                             currentPage (step ev st) = 0 /\ safePage (step ev st) = 0).
  { intros ev Hev. rewrite (step_result_set_change ev st Hev).
    pose proof (handle_resets_page ev st Hev) as Hcp. split; [exact Hcp|].
    unfold Dashboard.safePage. rewrite Hcp.
    pose proof (totalPages_ge_1 (handle ev st)). lia. }
  assert (Hfirst : forall ev, changesResultSet ev = true -> 0 < pageSize (step ev st) ->
                              paginatedProjects (step ev st)
                              = firstn (Z.to_nat (pageSize (step ev st)))
                                       (sortedProjects (step ev st))).
  { intros ev Hev Hps. destruct (Hzero ev Hev) as [_ Hsafe].
    unfold Dashboard.paginatedProjects, Dashboard.startIndex. rewrite Hsafe.
    rewrite Z.mul_0_l, Z.add_0_l. apply slice_from_zero. lia. }
  split; [intros v; now rewrite step_result_set_change|].
  split; [intros v; now rewrite step_result_set_change|].
  split; [intros v; now rewrite step_result_set_change|].
  split; [intros o; now rewrite step_result_set_change|].
  split; [exact Hzero|]. split.
  - intros o.
    assert (Hps : pageSize (step (ChangePageSize o) st) = pageSizeValue o)
      by now rewrite step_result_set_change.
    rewrite <- Hps. apply Hfirst; [reflexivity|].
    rewrite Hps. apply pageSizeValue_pos.
  - intros ev Hev Hps. apply Hfirst; [exact Hev|].
    rewrite (step_result_set_change ev st Hev). now apply handle_pageSize_pos.
Qed.

End Component.
End DashboardFacts.

(* ------------------------------------------------------------------------ *)
(** ** The dashboard on concrete data *)

Module ScenarioFacts.
Import JS Dashboard JSFacts DashboardFacts Sample Scenario.
Local Open Scope Z_scope.

Lemma reachable_run lower getTime projects evs st :
  reachable lower getTime projects st ->
  reachable lower getTime projects (run lower getTime projects evs st).
Proof.
  revert st. induction evs as [|ev evs IH]; intros st Hr; cbn [run fold_left].
  - exact Hr.
  - apply IH. now constructor.
Qed.

Lemma filteredProjects_high_sample lower st :
  riskFilter st = RF_High ->
  filteredProjects lower mockProjects st =
  if matchesSearch lower st project2 && matchesUser st project2
  then [project2] else [].
Proof.
  intros Hrisk. unfold filteredProjects, mockProjects. cbn [filter].
  assert (H1 : matchesRisk st project1 = false)
    by (unfold matchesRisk; rewrite Hrisk; reflexivity).
  assert (H2 : matchesRisk st project2 = true)
    by (unfold matchesRisk; rewrite Hrisk; reflexivity).
  assert (H3 : matchesRisk st project3 = false)
    by (unfold matchesRisk; rewrite Hrisk; reflexivity).
  rewrite H1, H2, H3, !andb_false_r, andb_true_r. cbn [andb]. reflexivity.
Qed.

(** C1, as stated, fails: on the sample projects with the risk filter High,
    the search term zzz leaves no row at all. *)
Lemma high_risk_search_counterexample :
  riskFilter highRiskNoMatch = RF_High
  /\ userFilter highRiskNoMatch = str "All"
  /\ searchTerm highRiskNoMatch = str "zzz"
  /\ filteredProjects toLowerCaseASCII mockProjects highRiskNoMatch = []
  /\ paginatedProjects toLowerCaseASCII IsoDate.getTime mockProjects highRiskNoMatch = [].
Proof. repeat split; vm_compute; reflexivity. Qed.

(** C1, amended: on the sample projects, in a reachable state with the risk
    filter High and the user filter All, the filtered list and the visible
    page are exactly the project with id 2 when the search term trims to the
    empty string or is a case-insensitive substring of that project's
    username or project name, and are empty otherwise. *)
Theorem high_risk_shows_project2_when_search_matches lower getTime st :
  reachable lower getTime mockProjects st ->
  riskFilter st = RF_High ->
  userFilter st = str "All" ->
  id project2 = str "2"
  /\ (matchesSearch lower st project2 = true <->
      trim (searchTerm st) = []
      \/ caseInsensitiveSubstring lower (searchTerm st) (username project2)
      \/ caseInsensitiveSubstring lower (searchTerm st) (projectName project2))
  /\ filteredProjects lower mockProjects st
     = (if matchesSearch lower st project2 then [project2] else [])
  /\ paginatedProjects lower getTime mockProjects st
     = (if matchesSearch lower st project2 then [project2] else []).
Proof.
  intros Hr Hrisk Huser.
  destruct (reachable_page_in_range Hr) as [Hps [Hcp0 Hcp1]].
  assert (Hf : filteredProjects lower mockProjects st
               = if matchesSearch lower st project2 then [project2] else []).
  { rewrite (filteredProjects_high_sample lower st Hrisk).
    assert (matchesUser st project2 = true) as ->
        by (unfold matchesUser; rewrite Huser; reflexivity).
    now rewrite andb_true_r. }
  split; [reflexivity|]. split; [apply matchesSearch_spec|]. split; [exact Hf|].
  assert (Hs : sortedProjects lower getTime mockProjects st
               = if matchesSearch lower st project2 then [project2] else []).
  { unfold sortedProjects. rewrite Hf.
    now destruct (matchesSearch lower st project2). }
  assert (Htp : totalPages lower getTime mockProjects st = 1).
  { unfold totalPages. rewrite Hs.
    destruct (matchesSearch lower st project2).
    - change (Z.of_nat (List.length [project2])) with 1.
      rewrite (@Math_ceil_div_unique 1 (pageSize st) 1 Hps) by lia. reflexivity.
    - change (Z.of_nat (List.length (@nil ProjectRow))) with 0.
      rewrite (@Math_ceil_div_unique 0 (pageSize st) 0 Hps) by lia. reflexivity. }
  unfold paginatedProjects, startIndex, safePage. rewrite Htp, Hs.
  replace (Z.min (currentPage st) (1 - 1)) with 0 by lia.
  rewrite Z.mul_0_l, Z.add_0_l, slice_from_zero by lia.
  apply firstn_all2.
  destruct (matchesSearch lower st project2); cbn [List.length]; lia.
Qed.

Lemma high_risk_shows_project2_witness :
  reachable toLowerCaseASCII IsoDate.getTime mockProjects highRisk
  /\ riskFilter highRisk = RF_High
  /\ userFilter highRisk = str "All"
  /\ paginatedProjects toLowerCaseASCII IsoDate.getTime mockProjects highRisk
     = (if matchesSearch toLowerCaseASCII highRisk project2 then [project2] else []).
Proof.
  assert (Hr : reachable toLowerCaseASCII IsoDate.getTime mockProjects highRisk)
    by (apply reach_step, reach_init).
  split; [exact Hr|]. split; [reflexivity|]. split; [reflexivity|].
  exact (proj2 (proj2 (proj2
    (@high_risk_shows_project2_when_search_matches toLowerCaseASCII IsoDate.getTime
       highRisk Hr eq_refl eq_refl)))).
Defined.




Lemma page_rows_and_count_witness :
  0 < pageSize sampleInitial
  /\ (1 - 1) * pageSize sampleInitial
     < Z.of_nat (List.length (filteredProjects toLowerCaseASCII mockProjects sampleInitial))
     <= 1 * pageSize sampleInitial
  /\ Z.of_nat (List.length (paginatedProjects toLowerCaseASCII IsoDate.getTime
                                              mockProjects sampleInitial))
     <= pageSize sampleInitial
  /\ totalPages toLowerCaseASCII IsoDate.getTime mockProjects sampleInitial = Z.max 1 1.
Proof.
  assert (H1 : 0 < pageSize sampleInitial) by reflexivity.
  assert (H2 : (1 - 1) * pageSize sampleInitial
               < Z.of_nat (List.length (filteredProjects toLowerCaseASCII mockProjects
                                                          sampleInitial))
               <= 1 * pageSize sampleInitial)
    by (vm_compute; split; [reflexivity | discriminate]).
  split; [exact H1|]. split; [exact H2|].
  exact (@page_rows_and_count toLowerCaseASCII IsoDate.getTime mockProjects
           sampleInitial 1 H1 H2).
Defined.

Lemma compare_invalid_dates_equal_witness :
  dateField SK_createdAt = Some createdAt
  /\ isNaN (IsoDate.getTime (createdAt undatedProject)) = true
  /\ compareProjects IsoDate.getTime SK_createdAt asc undatedProject project1 = 0%float
  /\ compareProjects IsoDate.getTime SK_createdAt desc project1 undatedProject = 0%float.
Proof.
  assert (Hnan : isNaN (IsoDate.getTime (createdAt undatedProject)) = true)
    by (vm_compute; reflexivity).
  split; [reflexivity|]. split; [exact Hnan|]. split.
  - exact (@compare_invalid_dates_equal IsoDate.getTime SK_createdAt asc createdAt
             undatedProject project1 eq_refl (or_introl Hnan)).
  - exact (@compare_invalid_dates_equal IsoDate.getTime SK_createdAt desc createdAt
             project1 undatedProject eq_refl (or_intror Hnan)).
Defined.

Lemma result_set_change_shows_first_page_witness :
  let st := step toLowerCaseASCII IsoDate.getTime twelveProjects
                 (ChangeRiskFilter RF_High) thirdPage in
  currentPage thirdPage = 2
  /\ riskFilter thirdPage = RF_All
  /\ riskFilter st = RF_High
  /\ totalPages toLowerCaseASCII IsoDate.getTime twelveProjects st = 2
  /\ currentPage st = 0
  /\ changesResultSet (ChangeRiskFilter RF_High) = true
  /\ 0 < pageSize thirdPage
  /\ paginatedProjects toLowerCaseASCII IsoDate.getTime twelveProjects st
     = firstn 5 (sortedProjects toLowerCaseASCII IsoDate.getTime twelveProjects st).
Proof.
  cbv zeta.
  destruct (@result_set_change_shows_first_page toLowerCaseASCII IsoDate.getTime
              twelveProjects thirdPage) as [_ [Hrisk [_ [_ [_ [_ Hfirst]]]]]].
  assert (Hps : 0 < pageSize thirdPage) by (vm_compute; reflexivity).
  split; [vm_compute; reflexivity|]. split; [vm_compute; reflexivity|].
  split; [rewrite Hrisk; reflexivity|].
  split; [rewrite Hrisk; vm_compute; reflexivity|].
  split; [rewrite Hrisk; reflexivity|].
  split; [reflexivity|]. split; [exact Hps|].
  rewrite (Hfirst (ChangeRiskFilter RF_High) eq_refl Hps).
  rewrite Hrisk. reflexivity.
Defined.

End ScenarioFacts.

(* ------------------------------------------------------------------------ *)
(** ** The document viewer *)

Module DocumentViewerFacts.
Import JS DocumentViewer.

Ltac run_task :=
  unfold task, tryCatch, fetchAndRender, bind, await, throw, ret, setInnerHTML.

(** Whatever the task finds in the container, a failure leaves the fallback
    notice there and the task settles without an exception. *)
Lemma task_failure env url el :
  failure env url -> task env url el = (inr tt, fallbackNotice).
Proof.
  intros [e Hf | res Hf Hok | res e Hf Hok Hbuf | res buffer written e Hf Hok Hbuf Hr];
    run_task; rewrite Hf, ?Hok; cbn [negb]; try reflexivity.
  - rewrite Hbuf. reflexivity.
  - rewrite Hbuf, Hr. reflexivity.
Qed.

(** When nothing fails, the container holds what the renderer wrote into
    the emptied container. *)
Lemma task_success env url el res buffer written :
  fetch env url = inr res -> ok res = true -> arrayBuffer res = inr buffer ->
  renderAsync env buffer [] = (written, None) ->
  task env url el = (inr tt, written).
Proof.
  intros Hf Hok Hbuf Hr. run_task. rewrite Hf, Hok. cbn [negb].
  rewrite Hbuf, Hr. reflexivity.
Qed.

(** The task never throws past its [catch]. *)
Lemma task_never_throws env url el : fst (task env url el) = inr tt.
Proof.
  run_task. destruct (fetch env url) as [e | res]; [reflexivity|].
  destruct (ok res); cbn [negb]; [|reflexivity].
  destruct (arrayBuffer res) as [e | buffer]; [reflexivity|].
  destruct (renderAsync env buffer []) as [written [e|]]; reflexivity.
Qed.

(** C7: for an open viewer with a URL, every failure of the
    fetch-and-render sequence (network error, non-OK status such as 404,
    unreadable body, render exception) replaces the content with the fixed
    fallback notice; the task settles normally, so no exception leaves the
    viewer; and the viewer is still open. *)
Theorem viewer_failure_shows_fallback env url el :
  truthy url = true ->
  failure env url ->
  effect env url {| open := true; container := Some el |}
  = (Some (inr tt), {| open := true; container := Some fallbackNotice |}).
Proof.
  intros Hurl Hfail. unfold effect. cbn [container open negb orb].
  rewrite Hurl. cbn [negb]. now rewrite (task_failure el Hfail).
Qed.

Lemma viewer_failure_shows_fallback_witness :
  truthy (supplierDocUrl Sample.project2) = true
  /\ failure Scenario.notFound (supplierDocUrl Sample.project2)
  /\ effect Scenario.notFound (supplierDocUrl Sample.project2)
            {| open := true; container := Some [] |}
     = (Some (inr tt), {| open := true; container := Some fallbackNotice |}).
Proof.
  assert (Hfail : failure Scenario.notFound (supplierDocUrl Sample.project2))
    by (eapply NotOkStatus; reflexivity).
  split; [reflexivity|]. split; [exact Hfail|].
  exact (@viewer_failure_shows_fallback Scenario.notFound
           (supplierDocUrl Sample.project2) [] eq_refl Hfail).
Defined.

End DocumentViewerFacts.

(* ------------------------------------------------------------------------ *)
(** ** The supplier-nda route *)

Module RouteFacts.
Import JS Route.

(** C9: when the document file is on disk, [GET] answers 200 with the bytes
    of the file as body and the word-processing content type. *)
Theorem GET_serves_stored_document cwd path_join readFileSync fileBuffer :
  readFileSync (filePath cwd path_join) = Some fileBuffer ->
  GET cwd path_join readFileSync
  = Some {| body := fileBuffer;
            status := 200;
            headers :=
              [(str "Content-Type",
                str "application/vnd.openxmlformats-officedocument.wordprocessingml.document")] |}.
Proof. intros Hfile. unfold GET. now rewrite Hfile. Qed.

(** Without the file the handler does not answer: the exception of
    [readFileSync] leaves it. *)
Lemma GET_missing_document cwd path_join readFileSync :
  readFileSync (filePath cwd path_join) = None ->
  GET cwd path_join readFileSync = None.
Proof. intros Hfile. unfold GET. now rewrite Hfile. Qed.

Lemma GET_serves_stored_document_witness :
  let disk := Scenario.diskWith (str "/srv/app/public/docs/supplier.docx")
                                Scenario.docxBytes in
  disk (filePath (str "/srv/app") Scenario.posixJoin) = Some Scenario.docxBytes
  /\ option_map status (GET (str "/srv/app") Scenario.posixJoin disk) = Some 200%Z
  /\ option_map body (GET (str "/srv/app") Scenario.posixJoin disk)
     = Some Scenario.docxBytes.
Proof.
  cbv zeta.
  assert (Hfile : Scenario.diskWith (str "/srv/app/public/docs/supplier.docx")
                    Scenario.docxBytes (filePath (str "/srv/app") Scenario.posixJoin)
                  = Some Scenario.docxBytes) by (vm_compute; reflexivity).
  split; [exact Hfile|].
  rewrite (@GET_serves_stored_document (str "/srv/app") Scenario.posixJoin _ _ Hfile).
  split; reflexivity.
Defined.

End RouteFacts.

(* ------------------------------------------------------------------------ *)
(** ** The deviation count label *)

Module UtilsFacts.
Import JS Utils.





End UtilsFacts.

(* ------------------------------------------------------------------------ *)
(** ** The options of the user filter *)

Module UniqueUsersFacts.
Import JS Dashboard JSFacts.

Lemma existsb_streq v set : existsb (streq v) set = true <-> In v set.
Proof.
  rewrite existsb_exists. split.
  - intros [x [Hin Heq]]. apply streq_eq in Heq. now subst.
  - intros Hin. exists v. split; [exact Hin | now apply streq_eq].
Qed.

Lemma fold_set_spec values : forall set,
  NoDup set ->
  let result := fold_left (fun set v => if existsb (streq v) set then set else set ++ [v])
                          values set in
  NoDup result
  /\ (forall u, In u result <-> In u set \/ In u values)
  /\ exists added, result = set ++ added.
Proof.
  induction values as [|v values IH]; intros set Hnd; cbn [fold_left].
  - split; [exact Hnd|]. split; [intros u; cbn [In]; tauto|].
    exists []. now rewrite app_nil_r.
  - destruct (existsb (streq v) set) eqn:E.
    + destruct (IH set Hnd) as [H1 [H2 H3]]. split; [exact H1|]. split; [|exact H3].
      intros u. rewrite H2. apply existsb_streq in E. cbn [In].
      split; [tauto|]. intros [H | [<- | H]]; auto.
    + assert (Hnd' : NoDup (set ++ [v])).
      { apply NoDup_app; [exact Hnd | repeat constructor; intros [] |].
        intros x Hx [<- | []]. apply existsb_streq in Hx. congruence. }
      destruct (IH (set ++ [v]) Hnd') as [H1 [H2 [added H3]]].
      split; [exact H1|]. split.
      * intros u. rewrite H2, in_app_iff. cbn [In]. tauto.
      * exists (v :: added). rewrite H3, <- app_assoc. reflexivity.
Qed.

(** X2: The user filter offers every username of the project list, each one
    once. *)
Theorem uniqueUsers_distinct_usernames projects :
  NoDup (uniqueUsers projects)
  /\ (forall u, In u (uniqueUsers projects) <->
                exists p, In p projects /\ username p = u).
Proof.
  unfold uniqueUsers, Array_from_Set.
  destruct (@fold_set_spec (map username projects) [] (NoDup_nil _)) as [H1 [H2 _]].
  split; [exact H1|]. intros u. rewrite H2, in_map_iff. cbn [In]. split.
  - intros [[] | [p [Hu Hp]]]. now exists p.
  - intros [p [Hp Hu]]. right. now exists p.
Qed.

End UniqueUsersFacts.

(* ------------------------------------------------------------------------ *)
(** ** The table beyond the filter: order, pages, navigation *)

Module TableFacts.
Import JS Dashboard JSFacts DashboardFacts.
Local Open Scope Z_scope.

Lemma filter_all (A : Type) (f : A -> bool) (l : list A) :
  (forall x, In x l -> f x = true) -> filter f l = l.
Proof.
  induction l as [|x l IH]; intros H; cbn [filter]; [reflexivity|].
  rewrite (H x (or_introl eq_refl)), IH; [reflexivity|].
  intros y Hy. apply H. now right.
Qed.

Section SortFacts.
Variable A : Type.
Variable comparefn : A -> A -> float.

Lemma insert_perm x l : Permutation (ArraySort.insert comparefn x l) (x :: l).
Proof.
  induction l as [|y l IH]; cbn [ArraySort.insert]; [reflexivity|].
  destruct (ArraySort.after comparefn x y); [|reflexivity].
  rewrite IH. apply perm_swap.
Qed.

Lemma sort_perm l : Permutation (ArraySort.sort comparefn l) l.
Proof.
  unfold ArraySort.sort. induction l as [|x l IH]; cbn [fold_right]; [reflexivity|].
  rewrite insert_perm. now constructor.
Qed.

(** A comparator that never puts an element after a later one leaves the
    array as it is. *)
Lemma sort_ties l :
  (forall x y, In x l -> In y l -> ArraySort.after comparefn x y = false) ->
  ArraySort.sort comparefn l = l.
Proof.
  unfold ArraySort.sort. induction l as [|x l IH]; intros H; cbn [fold_right];
    [reflexivity|].
  rewrite IH by (intros a b Ha Hb; apply H; now right).
  destruct l as [|y l]; cbn [ArraySort.insert]; [reflexivity|].
  rewrite H; [reflexivity | now left | right; now left].
Qed.
End SortFacts.

Section Component.
Variable toLowerCase : jsstring -> jsstring.
Variable Date_getTime : jsstring -> float.
Variable projects : list ProjectRow.

Local Abbreviation filteredProjects := (filteredProjects toLowerCase projects).
Local Abbreviation sortedProjects := (sortedProjects toLowerCase Date_getTime projects).
Local Abbreviation totalPages := (totalPages toLowerCase Date_getTime projects).
Local Abbreviation safePage := (safePage toLowerCase Date_getTime projects).
Local Abbreviation paginatedProjects := (paginatedProjects toLowerCase Date_getTime projects).
Local Abbreviation clampEffect := (clampEffect toLowerCase Date_getTime projects).
Local Abbreviation handle := (handle toLowerCase Date_getTime projects).
Local Abbreviation step := (step toLowerCase Date_getTime projects).
Local Abbreviation reachable := (reachable toLowerCase Date_getTime projects).

(** X3: With a blank search term and both filters on All, the filtered list is
    the whole project list, in its order. *)
Theorem default_filters_show_all st :
  trim (searchTerm st) = [] ->
  riskFilter st = RF_All ->
  userFilter st = str "All" ->
  filteredProjects st = projects.
Proof.
  intros Hs Hr Hu. unfold Dashboard.filteredProjects. apply filter_all.
  intros p _. unfold matchesSearch, matchesRisk, matchesUser.
  rewrite Hs, Hr, Hu. reflexivity.
Qed.

(** X5: Whatever the sort key and direction, the sorted list holds the rows of
    the filtered list, each as often: sorting drops and repeats nothing. *)
Theorem sortedProjects_permutation st :
  Permutation (sortedProjects st) (filteredProjects st).
Proof. unfold Dashboard.sortedProjects. apply sort_perm. Qed.

Lemma compare_nan key dir field a b :
  dateField key = Some field ->
  isNaN (Date_getTime (field a)) = true ->
  compareProjects Date_getTime key dir a b = 0%float.
Proof.
  intros Hkey Hnan. unfold compareProjects.
  destruct key; cbn [dateField] in Hkey; try discriminate;
    injection Hkey as <-; cbn [sortValues]; now rewrite Hnan.
Qed.

(** X6: Sorting by a date column on which no filtered project has a valid date
    keeps the filtered list in its order, in both directions. *)
Theorem sort_by_invalid_dates_keeps_order st field :
  dateField (sortKey st) = Some field ->
  (forall p, In p (filteredProjects st) -> isNaN (Date_getTime (field p)) = true) ->
  sortedProjects st = filteredProjects st.
Proof.
  intros Hkey Hnan. unfold Dashboard.sortedProjects. apply sort_ties.
  intros x y Hx _. unfold ArraySort.after.
  now rewrite (@compare_nan (sortKey st) (sortDir st) field x y Hkey (Hnan x Hx)).
Qed.

(** X7: A click on a column header makes that column the sort key; the
    direction flips when the column was the key already and is descending
    otherwise; nothing else in the state changes; and once a column is the
    key, two more clicks on it bring back the same state. *)
Theorem handleSort_toggle key st :
  sortKey (handleSort key st) = key
  /\ sortDir (handleSort key st)
     = (if SortKey_eqb (sortKey st) key
        then match sortDir st with asc => desc | desc => asc end
        else desc)
  /\ setSortDir (sortDir st) (setSortKey (sortKey st) (handleSort key st)) = st
  /\ handleSort key (handleSort key (handleSort key st)) = handleSort key st.
Proof.
  destruct st as [sel o1 o2 o3 term rf uf k d ps cp].
  destruct k, key, d; repeat split; reflexivity.
Qed.

(** X8: Unlike a filter change, a click on a column header keeps the page index
    and the page count, and the rows on all pages together are the same
    rows. *)
Theorem sort_click_keeps_page st key :
  reachable st ->
  currentPage (step (ClickSort key) st) = currentPage st
  /\ totalPages (step (ClickSort key) st) = totalPages st
  /\ Permutation (sortedProjects (step (ClickSort key) st)) (sortedProjects st).
Proof.
  intros Hr. destruct (reachable_page_in_range Hr) as [_ [_ Hcp]].
  assert (Hc : currentPage (handleSort key st) = currentPage st).
  { unfold handleSort. now destruct (SortKey_eqb (sortKey st) key). }
  assert (Hs : step (ClickSort key) st = handleSort key st).
  { unfold Dashboard.step, Dashboard.clampEffect. cbn [Dashboard.handle].
    rewrite totalPages_handleSort, Hc.
    assert ((currentPage st >? totalPages st - 1) = false) as ->; [|reflexivity].
    rewrite Z.gtb_ltb. apply Z.ltb_ge. lia. }
  rewrite Hs. split; [exact Hc|]. split; [apply totalPages_handleSort|].
  unfold Dashboard.sortedProjects. rewrite !sort_perm.
  now rewrite filteredProjects_handleSort.
Qed.

(** *** Pages *)

Lemma firstn_add (A : Type) (a b : nat) (l : list A) :
  firstn (a + b) l = firstn a l ++ firstn b (skipn a l).
Proof.
  revert l. induction a as [|a IH]; intros l; [reflexivity|].
  destruct l as [|x l]; cbn [Nat.add firstn skipn app].
  - now rewrite firstn_nil.
  - now rewrite IH.
Qed.

Lemma slice_chunk (A : Type) (l : list A) s n :
  0 <= s -> 0 <= n ->
  slice l s (s + n) = firstn (Z.to_nat n) (skipn (Z.to_nat s) l).
Proof.
  intros Hs Hn. unfold slice, relIndex.
  assert ((s <? 0) = false) as -> by (apply Z.ltb_ge; lia).
  assert ((s + n <? 0) = false) as -> by (apply Z.ltb_ge; lia).
  set (len := Z.of_nat (List.length l)).
  destruct (Z.le_gt_cases len s) as [Hge | Hlt].
  - rewrite (Z.min_r s), (Z.min_r (s + n)) by lia.
    rewrite !skipn_all2 by (unfold len in *; lia). now rewrite !firstn_nil.
  - rewrite (Z.min_l s) by lia.
    destruct (Z.le_gt_cases (s + n) len) as [Hle | Hgt].
    + rewrite Z.min_l by lia. f_equal. lia.
    + rewrite Z.min_r by lia. rewrite !firstn_all2; [reflexivity | |];
        rewrite length_skipn; unfold len in *; lia.
Qed.

Lemma chunks_firstn (A : Type) (l : list A) (size n : nat) :
  List.concat (map (fun i => firstn size (skipn (i * size) l)) (seq 0 n))
  = firstn (n * size) l.
Proof.
  induction n as [|n IH]; [reflexivity|].
  rewrite seq_S, map_app, concat_app, IH. cbn [map List.concat Nat.add].
  rewrite app_nil_r. replace (S n * size)%nat with (n * size + size)%nat by lia.
  now rewrite firstn_add.
Qed.

Lemma sortedProjects_setCurrentPage v st :
  sortedProjects (setCurrentPage v st) = sortedProjects st.
Proof. reflexivity. Qed.

(** The last page starts inside the list, and the pages reach its end. *)
Lemma totalPages_bounds st :
  0 < pageSize st ->
  let len := Z.of_nat (List.length (sortedProjects st)) in
  len <= totalPages st * pageSize st
  /\ (0 < len -> (totalPages st - 1) * pageSize st < len)
  /\ (len = 0 -> totalPages st = 1).
Proof.
  intros Hps len. unfold Dashboard.totalPages. fold len.
  pose proof (Math_ceil_div_bounds len Hps) as Hc. repeat split; nia.
Qed.

Lemma page_chunk st :
  0 < pageSize st -> 0 <= currentPage st <= totalPages st - 1 ->
  paginatedProjects st
  = firstn (Z.to_nat (pageSize st))
           (skipn (Z.to_nat (currentPage st * pageSize st)) (sortedProjects st)).
Proof.
  intros Hps Hcp. unfold Dashboard.paginatedProjects, Dashboard.startIndex,
    Dashboard.safePage.
  rewrite Z.min_l by lia. apply slice_chunk; nia.
Qed.

(** X9: Laid end to end, the pages 0 to pageCount - 1 are the sorted list: every
    filtered project is on exactly one page, in sort order. *)
Theorem pages_tile_sorted_list st :
  0 < pageSize st ->
  List.concat (map (fun i => paginatedProjects (setCurrentPage (Z.of_nat i) st))
              (seq 0 (Z.to_nat (totalPages st))))
  = sortedProjects st.
Proof.
  intros Hps.
  pose proof (totalPages_ge_1 toLowerCase Date_getTime projects st) as Htp.
  destruct (totalPages_bounds st Hps) as [Hlen _].
  rewrite (map_ext_in _ (fun i => firstn (Z.to_nat (pageSize st))
                                    (skipn (i * Z.to_nat (pageSize st))
                                           (sortedProjects st)))).
  - rewrite chunks_firstn. apply firstn_all2. nia.
  - intros i Hi. apply in_seq in Hi.
    rewrite page_chunk; fields; rewrite ?totalPages_setCurrentPage; [|lia|lia].
    rewrite sortedProjects_setCurrentPage. do 2 f_equal. nia.
Qed.

Lemma page_length st :
  0 < pageSize st -> 0 <= currentPage st <= totalPages st - 1 ->
  Z.of_nat (List.length (paginatedProjects st))
  = Z.min (pageSize st)
          (Z.of_nat (List.length (sortedProjects st)) - currentPage st * pageSize st).
Proof.
  intros Hps Hcp. rewrite (page_chunk st Hps Hcp), length_firstn, length_skipn.
  destruct (totalPages_bounds st Hps) as [Hlen [Hlast Hzero]].
  assert (H0 : 0 <= currentPage st * pageSize st) by nia.
  destruct (Z.eq_dec (Z.of_nat (List.length (sortedProjects st))) 0) as [Hz | Hnz].
  - specialize (Hzero Hz). assert (currentPage st = 0) as -> by lia. lia.
  - assert (currentPage st * pageSize st
            < Z.of_nat (List.length (sortedProjects st))).
    { assert ((totalPages st - 1) * pageSize st
              < Z.of_nat (List.length (sortedProjects st))) by (apply Hlast; lia).
      nia. }
    lia.
Qed.

(** X10: In a reachable state the page shows the rows from
    pageIndex * pageSize on, pageSize of them or as many as are left, and
    on a non-empty result at least one. *)
Theorem visible_row_count st :
  reachable st ->
  let count := Z.of_nat (List.length (filteredProjects st)) in
  Z.of_nat (List.length (paginatedProjects st))
  = Z.min (pageSize st) (count - currentPage st * pageSize st)
  /\ (0 < count <-> 0 < Z.of_nat (List.length (paginatedProjects st))).
Proof.
  intros Hr count. destruct (reachable_page_in_range Hr) as [Hps Hcp].
  pose proof (page_length st Hps Hcp) as Hlen.
  destruct (totalPages_bounds st Hps) as [_ [Hlast _]].
  rewrite sortedProjects_length in *. fold count in Hlen, Hlast.
  split; [exact Hlen|]. rewrite Hlen. split; [|lia].
  intros Hpos. specialize (Hlast Hpos). nia.
Qed.

(** X11: In a reachable state the row saying that no project matches is there
    exactly when the filters let no project through. *)
Theorem no_match_row_iff_nothing_filtered st :
  reachable st ->
  showsNoMatchRow toLowerCase Date_getTime projects st = true
  <-> filteredProjects st = [].
Proof.
  intros Hr. destruct (reachable_page_in_range Hr) as [Hps Hcp].
  pose proof (page_length st Hps Hcp) as Hlen.
  destruct (totalPages_bounds st Hps) as [_ [Hlast _]].
  rewrite sortedProjects_length in *.
  unfold showsNoMatchRow. rewrite Nat.eqb_eq. split.
  - intros H0. destruct (filteredProjects st) as [|p l] eqn:E; [reflexivity|].
    exfalso. cbn [List.length] in *.
    assert ((totalPages st - 1) * pageSize st < Z.of_nat (S (List.length l)))
      by (apply Hlast; lia).
    nia.
  - intros Hnil. rewrite Hnil in Hlen. cbn [List.length] in Hlen. lia.
Qed.

(** X12: In a reachable state the label reads Page pageIndex + 1 of pageCount,
    a page number between 1 and the page count; the case made for a page
    count of 0 never shows. *)
Theorem page_label_in_range st :
  reachable st ->
  pageLabel toLowerCase Date_getTime projects st = (currentPage st + 1, totalPages st)
  /\ 1 <= currentPage st + 1 <= totalPages st.
Proof.
  intros Hr. destruct (reachable_page_in_range Hr) as [_ Hcp].
  unfold pageLabel, Dashboard.safePage.
  assert ((totalPages st =? 0) = false) as -> by (apply Z.eqb_neq; lia).
  rewrite Z.min_l by lia. split; [reflexivity | lia].
Qed.

(** *** Prev and Next *)

Lemma setCurrentPage_same st : setCurrentPage (currentPage st) st = st.
Proof. now destruct st. Qed.

Lemma step_ClickNext st :
  0 <= currentPage st <= totalPages st - 1 ->
  step ClickNext st
  = setCurrentPage (Z.min (totalPages st - 1) (currentPage st + 1)) st.
Proof.
  intros Hcp. unfold Dashboard.step. cbn [Dashboard.handle]. unfold Dashboard.safePage.
  rewrite (Z.min_l (currentPage st)) by lia.
  destruct (currentPage st >=? totalPages st - 1) eqn:E.
  - apply Z.geb_le in E. rewrite Z.min_l by lia.
    replace (totalPages st - 1) with (currentPage st) by lia.
    rewrite setCurrentPage_same. unfold Dashboard.clampEffect.
    assert ((currentPage st >? totalPages st - 1) = false) as ->; [|reflexivity].
    rewrite Z.gtb_ltb. apply Z.ltb_ge. lia.
  - unfold Dashboard.clampEffect. rewrite totalPages_setCurrentPage. fields.
    assert ((Z.min (totalPages st - 1) (currentPage st + 1) >? totalPages st - 1)
            = false) as ->; [|reflexivity].
    rewrite Z.gtb_ltb. apply Z.ltb_ge. lia.
Qed.

Lemma step_ClickPrev st :
  0 <= currentPage st <= totalPages st - 1 ->
  step ClickPrev st = setCurrentPage (Z.max 0 (currentPage st - 1)) st.
Proof.
  intros Hcp. unfold Dashboard.step. cbn [Dashboard.handle]. unfold Dashboard.safePage.
  rewrite (Z.min_l (currentPage st)) by lia.
  destruct (currentPage st =? 0) eqn:E.
  - apply Z.eqb_eq in E. rewrite E. cbn [Z.sub Z.opp Z.add Z.max Z.compare].
    rewrite <- E, setCurrentPage_same. unfold Dashboard.clampEffect.
    assert ((currentPage st >? totalPages st - 1) = false) as ->; [|reflexivity].
    rewrite Z.gtb_ltb. apply Z.ltb_ge. lia.
  - unfold Dashboard.clampEffect. rewrite totalPages_setCurrentPage. fields.
    assert ((Z.max 0 (currentPage st - 1) >? totalPages st - 1) = false) as ->;
      [|reflexivity].
    rewrite Z.gtb_ltb. apply Z.ltb_ge. lia.
Qed.

(** X13: In a reachable state Prev is disabled exactly on the first page and
    Next exactly on the last; Prev goes one page back and Next one page on,
    and neither leaves the first or the last page. *)
Theorem prev_next_move_one_page st :
  reachable st ->
  (prevDisabled toLowerCase Date_getTime projects st = true <-> currentPage st = 0)
  /\ (nextDisabled toLowerCase Date_getTime projects st = true
      <-> currentPage st = totalPages st - 1)
  /\ step ClickPrev st = setCurrentPage (Z.max 0 (currentPage st - 1)) st
  /\ step ClickNext st
     = setCurrentPage (Z.min (totalPages st - 1) (currentPage st + 1)) st.
Proof.
  intros Hr. destruct (reachable_page_in_range Hr) as [_ Hcp].
  unfold prevDisabled, nextDisabled, Dashboard.safePage.
  rewrite (Z.min_l (currentPage st)) by lia.
  rewrite Z.eqb_eq, Z.geb_le.
  repeat split; try lia; try (now apply step_ClickPrev); now apply step_ClickNext.
Qed.

(** X14: From a reachable state that is not on the last page, Next and then
    Prev bring back the very same state; so do Prev and then Next from a
    state that is not on the first page. *)
Theorem next_prev_round_trip st :
  reachable st ->
  (currentPage st < totalPages st - 1 ->
   step ClickPrev (step ClickNext st) = st)
  /\ (0 < currentPage st ->
      step ClickNext (step ClickPrev st) = st).
Proof.
  intros Hr. destruct (reachable_page_in_range Hr) as [_ Hcp]. split; intros H.
  - rewrite (step_ClickNext st Hcp), Z.min_r by lia.
    rewrite step_ClickPrev by (rewrite totalPages_setCurrentPage; fields; lia).
    fields. rewrite Z.max_r by lia.
    replace (currentPage st + 1 - 1) with (currentPage st) by lia.
    now destruct st.
  - rewrite (step_ClickPrev st Hcp), Z.max_r by lia.
    rewrite step_ClickNext by (rewrite totalPages_setCurrentPage; fields; lia).
    rewrite totalPages_setCurrentPage. fields. rewrite Z.min_r by lia.
    replace (currentPage st - 1 + 1) with (currentPage st) by lia.
    now destruct st.
Qed.

(** X15: The page size of a reachable state is one of the five options of the
    selector. *)
Theorem pageSize_is_an_option st :
  reachable st -> In (pageSize st) [5; 10; 20; 50; 100].
Proof.
  induction 1 as [|st ev Hr IH].
  - cbn. tauto.
  - unfold Dashboard.step. rewrite clampEffect_pageSize.
    destruct ev; cbn [Dashboard.handle]; fields; try exact IH.
    + destruct size; cbn; tauto.
    + unfold handleSort. now destruct (SortKey_eqb (sortKey st) key).
    + now destruct (safePage st =? 0).
    + now destruct (safePage st >=? totalPages st - 1).
Qed.

(** *** Rows, selection and modals *)

Lemma In_slice (A : Type) (l : list A) s e x : In x (slice l s e) -> In x l.
Proof.
  unfold slice. intros H.
  set (k := Z.to_nat (relIndex (Z.of_nat (List.length l)) s)) in *.
  rewrite <- (firstn_skipn k l). apply in_or_app. right.
  revert H. generalize (skipn k l). intros t H.
  rewrite <- (firstn_skipn (Z.to_nat (Z.max (relIndex (Z.of_nat (List.length l)) e
                                             - relIndex (Z.of_nat (List.length l)) s) 0)) t).
  apply in_or_app. now left.
Qed.

(** X16: Whatever the state, every row on the page is one of the projects and
    passes the search, the risk filter and the user filter. *)
Theorem visible_rows_pass_filters st p :
  In p (paginatedProjects st) ->
  In p projects
  /\ matchesSearch toLowerCase st p = true
  /\ matchesRisk st p = true
  /\ matchesUser st p = true.
Proof.
  intros H. unfold Dashboard.paginatedProjects in H. apply In_slice in H.
  unfold Dashboard.sortedProjects in H.
  apply (Permutation_in _ (sort_perm _ _)) in H.
  unfold Dashboard.filteredProjects in H. apply filter_In in H as [Hin Hf].
  apply andb_true_iff in Hf as [Hf Hu]. apply andb_true_iff in Hf as [Hs Hr].
  now repeat split.
Qed.

(** X17: Choosing one of the offered users, with a blank search term and the
    risk filter on All, never empties the table. *)
Theorem offered_user_has_rows st u :
  In u (uniqueUsers projects) ->
  trim (searchTerm st) = [] ->
  riskFilter st = RF_All ->
  userFilter st = u ->
  filteredProjects st <> [].
Proof.
  intros Hu Hs Hr Hf. unfold uniqueUsers, Array_from_Set in Hu.
  destruct (@UniqueUsersFacts.fold_set_spec (map username projects) [] (NoDup_nil _))
    as [_ [Hin _]].
  apply Hin in Hu as [[] | Hu]. apply in_map_iff in Hu as [p [Hp Hinp]].
  assert (In p (filteredProjects st)); [|intros E; rewrite E in *; contradiction].
  unfold Dashboard.filteredProjects. apply filter_In. split; [exact Hinp|].
  unfold matchesSearch, matchesRisk, matchesUser. rewrite Hs, Hr, Hf, <- Hp.
  cbn [truthy negb orb RiskFilter_eqb andb].
  rewrite (proj2 (streq_eq (username p) (username p)) eq_refl). apply orb_true_r.
Qed.

Lemma clampEffect_frame st :
  selectedProject (clampEffect st) = selectedProject st
  /\ openSupplierDoc (clampEffect st) = openSupplierDoc st
  /\ openBaselineDoc (clampEffect st) = openBaselineDoc st
  /\ openDeviationModal (clampEffect st) = openDeviationModal st.
Proof.
  unfold Dashboard.clampEffect.
  destruct (currentPage st >? totalPages st - 1); repeat split.
Qed.

Lemma modals_frame st st' :
  selectedProject st' = selectedProject st ->
  openSupplierDoc st' = openSupplierDoc st ->
  openBaselineDoc st' = openBaselineDoc st ->
  openDeviationModal st' = openDeviationModal st ->
  current projects st' = current projects st
  /\ modals projects st' = modals projects st.
Proof.
  intros H1 H2 H3 H4. unfold modals, current. now rewrite H1, H2, H3, H4.
Qed.

(** X18: Searching, filtering, sorting, paging and changing the page size never
    change the current project nor what the three modals are given: a
    project filtered out of the table stays selected, and its modal stays
    open. *)
Theorem table_events_keep_selection st ev :
  touchesSelection ev = false ->
  current projects (step ev st) = current projects st
  /\ modals projects (step ev st) = modals projects st.
Proof.
  intros Hev. unfold Dashboard.step.
  destruct (clampEffect_frame (handle ev st)) as [H1 [H2 [H3 H4]]].
  apply modals_frame; rewrite ?H1, ?H2, ?H3, ?H4;
    destruct ev; try discriminate; cbn [Dashboard.handle]; try reflexivity;
    try (unfold handleSort; now destruct (SortKey_eqb (sortKey st) key));
    try (now destruct (safePage st =? 0));
    now destruct (safePage st >=? totalPages st - 1).
Qed.

(** X19: Selecting a row, opening a modal from a row and closing a modal never
    change the filters, the sort, the page size or the page index, so in a
    reachable state the same rows stay on the page. *)
Theorem selection_events_keep_table st ev :
  reachable st ->
  touchesSelection ev = true ->
  setOpenDeviationModal (openDeviationModal st)
    (setOpenBaselineDoc (openBaselineDoc st)
       (setOpenSupplierDoc (openSupplierDoc st)
          (setSelectedProject (selectedProject st) (step ev st)))) = st
  /\ paginatedProjects (step ev st) = paginatedProjects st.
Proof.
  intros Hr Hev. destruct (reachable_page_in_range Hr) as [_ Hcp].
  assert (Hno : (currentPage st >? totalPages st - 1) = false)
    by (rewrite Z.gtb_ltb; apply Z.ltb_ge; lia).
  assert (Hs : step ev st = handle ev st).
  { unfold Dashboard.step, Dashboard.clampEffect.
    destruct ev; try discriminate; cbn [Dashboard.handle];
      (replace (currentPage _ >? totalPages _ - 1) with false by (symmetry; exact Hno));
      reflexivity. }
  rewrite Hs. destruct ev; try discriminate; cbn [Dashboard.handle];
    (split; [now destruct st | reflexivity]).
Qed.

(** X20: Each of the three buttons of a row makes that row the current project
    and opens its own modal, which is then given that row's title and URL,
    or its deviations, risk level and score; the open flags of the other
    two modals stay as they were. *)
Theorem row_buttons_open_their_modal st p :
  let shown o1 o2 o3 :=
    Some {| supplierViewer :=
              {| viewerOpen := o1;
                 viewerTitle := supplierDocTitle p;
                 viewerUrl := supplierDocUrl p |};
            baselineViewer :=
              {| viewerOpen := o2;
                 viewerTitle := baselineDocTitle p;
                 viewerUrl := baselineDocUrl p |};
            deviationModal :=
              {| modalOpen := o3;
                 modalDeviations := deviations p;
                 modalRiskLevel := riskLevel p;
                 modalTotalWeightedScore := totalWeightedScore p |} |} in
  modals projects (step (ClickSupplierDoc p) st)
  = shown true (openBaselineDoc st) (openDeviationModal st)
  /\ modals projects (step (ClickBaselineDoc p) st)
     = shown (openSupplierDoc st) true (openDeviationModal st)
  /\ modals projects (step (ClickRiskSummary p) st)
     = shown (openSupplierDoc st) (openBaselineDoc st) true
  /\ modals projects (step (ClickRow p) st)
     = shown (openSupplierDoc st) (openBaselineDoc st) (openDeviationModal st).
Proof.
  cbv zeta. unfold Dashboard.step, modals, current.
  repeat split;
    match goal with
    | |- context [clampEffect ?s] =>
        destruct (clampEffect_frame s) as [-> [-> [-> ->]]]
    end; reflexivity.
Qed.

End Component.

(** X21: Without any project the table is empty on every reachable state: no row
    but the one saying that nothing matches, the label Page 1 of 1, no user
    to choose, and no modal as long as no project was selected. *)
Theorem empty_project_list lower getTime st :
  reachable lower getTime [] st ->
  paginatedProjects lower getTime [] st = []
  /\ showsNoMatchRow lower getTime [] st = true
  /\ pageLabel lower getTime [] st = (1, 1)
  /\ uniqueUsers [] = []
  /\ modals [] (initialState []) = None.
Proof.
  intros Hr. destruct (reachable_page_in_range Hr) as [Hps Hcp].
  assert (Hp : paginatedProjects lower getTime [] st = []).
  { destruct (paginatedProjects lower getTime [] st) as [|p l] eqn:E; [reflexivity|].
    assert (Hin : In p (paginatedProjects lower getTime [] st))
      by (rewrite E; now left).
    unfold paginatedProjects in Hin. apply In_slice in Hin. destruct Hin. }
  destruct (@totalPages_bounds lower getTime [] st Hps) as [_ [_ Hone]].
  specialize (Hone eq_refl).
  split; [exact Hp|]. split; [unfold showsNoMatchRow; now rewrite Hp|].
  split; [|split; reflexivity].
  unfold pageLabel, safePage. rewrite Hone. cbn [Z.eqb].
  rewrite Z.min_r by lia. reflexivity.
Qed.

End TableFacts.

(* ------------------------------------------------------------------------ *)
(** ** The search box and letter case *)

Module SearchFacts.
Import JS Dashboard.

(** X4: Two search terms with the same lower-casing, both blank or both not,
    give the same filtered list: the search does not see letter case. *)
Theorem search_ignores_case lower projects st a b :
  lower a = lower b ->
  (trim a = [] <-> trim b = []) ->
  filteredProjects lower projects (setSearchTerm a st)
  = filteredProjects lower projects (setSearchTerm b st).
Proof.
  intros Hl Hb. unfold filteredProjects. apply filter_ext. intros p.
  unfold matchesSearch, matchesRisk, matchesUser.
  cbn [searchTerm riskFilter userFilter setSearchTerm]. rewrite Hl.
  assert (Ht : truthy (trim a) = truthy (trim b)).
  { destruct (trim a) as [|x s], (trim b) as [|y t]; try reflexivity.
    - destruct Hb as [Hb _]. specialize (Hb eq_refl). discriminate.
    - destruct Hb as [_ Hb]. specialize (Hb eq_refl). discriminate. }
  now rewrite Ht.
Qed.

Lemma search_ignores_case_witness :
  toLowerCaseASCII (str "WYATT") = toLowerCaseASCII (str "wyatt")
  /\ filteredProjects toLowerCaseASCII Sample.mockProjects
       (setSearchTerm (str "WYATT") Scenario.sampleInitial)
     = filteredProjects toLowerCaseASCII Sample.mockProjects
         (setSearchTerm (str "wyatt") Scenario.sampleInitial).
Proof.
  split; [reflexivity|].
  apply (@search_ignores_case toLowerCaseASCII Sample.mockProjects
           Scenario.sampleInitial (str "WYATT") (str "wyatt") eq_refl).
  split; vm_compute; discriminate.
Defined.

End SearchFacts.

(* ------------------------------------------------------------------------ *)
(** ** The bars of the risk distribution *)

Module DistributionFacts.
Import JS DeviationModal.

Lemma SFcompare_Gt_Lt x y : SFcompare x y = Some Gt -> SFcompare y x = Some Lt.
Proof.
  destruct x as [s1|s1| |s1 m1 e1], y as [s2|s2| |s2 m2 e2]; simpl;
    try destruct s1; try destruct s2; simpl; try congruence;
    change (Pos.compare_cont Eq m1 m2) with (Pos.compare m1 m2);
    change (Pos.compare_cont Eq m2 m1) with (Pos.compare m2 m1);
    rewrite (Z.compare_antisym e1 e2), (Pos.compare_antisym m1 m2);
    destruct (e1 ?= e2)%Z, (m1 ?= m2)%positive; simpl; congruence.
Qed.

Lemma SFcompare_numbers x y :
  PrimFloat.is_nan x = false -> PrimFloat.is_nan y = false ->
  SFcompare (Prim2SF x) (Prim2SF y) <> None.
Proof.
  unfold PrimFloat.is_nan. rewrite !eqb_spec. unfold SFeqb.
  destruct (Prim2SF x), (Prim2SF y); simpl; try discriminate; congruence.
Qed.

Lemma ltb_leb x y : PrimFloat.ltb x y = true -> PrimFloat.leb x y = true.
Proof.
  rewrite ltb_spec, leb_spec. unfold SFltb, SFleb.
  destruct (SFcompare (Prim2SF x) (Prim2SF y)) as [[]|]; congruence.
Qed.

(** Two numbers neither of which is below the other are equal in the
    order. *)
Lemma not_ltb_leb x y :
  PrimFloat.is_nan x = false -> PrimFloat.is_nan y = false ->
  PrimFloat.ltb x y = false -> PrimFloat.ltb y x = false ->
  PrimFloat.leb x y = true.
Proof.
  intros Hx Hy. pose proof (SFcompare_numbers x y Hx Hy) as Hc.
  rewrite !ltb_spec, leb_spec. unfold SFltb, SFleb.
  destruct (SFcompare (Prim2SF x) (Prim2SF y)) as [[]|] eqn:E; try congruence.
  apply SFcompare_Gt_Lt in E. rewrite E. congruence.
Qed.

(** X22: The divisor of the bar widths is never zero and never NaN, whatever
    the scores: there is no division by zero. *)
Theorem totalScore_never_zero deviations :
  PrimFloat.is_zero (totalScore deviations) = false
  /\ PrimFloat.is_nan (totalScore deviations) = false.
Proof.
  unfold totalScore, orElse.
  destruct (falsyNumber (sumScores deviations)) eqn:E.
  - split; reflexivity.
  - unfold falsyNumber in E. now apply orb_false_iff in E.
Qed.

(** X23: A bar is never wider than 100 percent: its width is NaN exactly when
    the percentage is, and is at most 100 otherwise. *)
Theorem bar_width_at_most_100 total dev :
  let w := barWidth (distributionBar total dev) in
  PrimFloat.is_nan w = PrimFloat.is_nan (pct total dev)
  /\ (PrimFloat.is_nan w || PrimFloat.leb w 100) = true.
Proof.
  cbv zeta. cbn [barWidth distributionBar]. unfold Math_min.
  destruct (PrimFloat.is_nan (pct total dev)) eqn:Hnan; cbn [orb].
  - split; reflexivity.
  - change (PrimFloat.is_nan 100) with false. cbn [orb].
    destruct (PrimFloat.ltb (pct total dev) 100) eqn:Hlt.
    + rewrite Hnan. split; [reflexivity|]. now apply ltb_leb.
    + destruct (PrimFloat.ltb 100 (pct total dev)) eqn:Hgt.
      * split; reflexivity.
      * destruct (PrimFloat.get_sign (pct total dev)).
        -- rewrite Hnan. split; [reflexivity|].
           now apply not_ltb_leb.
        -- split; reflexivity.
Qed.

End DistributionFacts.

(* ------------------------------------------------------------------------ *)
(** ** The viewer's effect and task *)

Module ViewerTaskFacts.
Import JS DocumentViewer DocumentViewerFacts.

(** X24: The effect starts no task, and leaves the viewer as it is, exactly when
    the viewer is closed, the URL is empty or no container is mounted. *)
Theorem effect_idle_iff env url v :
  effect env url v = (None, v)
  <-> open v = false \/ url = [] \/ container v = None.
Proof.
  unfold effect. destruct v as [o [el|]]; cbn [container open].
  - destruct o, url as [|c url]; cbn [negb truthy orb].
    + split; [auto | reflexivity].
    + destruct (task env (c :: url) el) as [r el']. split; [discriminate|].
      intros [H | [H | H]]; discriminate.
    + split; [auto | reflexivity].
    + split; [auto | reflexivity].
  - split; [auto | reflexivity].
Qed.

(** X25: The task always settles normally; what it leaves in the container does
    not depend on what was there before; and that content is the fallback
    notice after a failure and otherwise what the renderer wrote into the
    emptied container. *)
Theorem task_outcome env url el :
  fst (task env url el) = inr tt
  /\ task env url el = task env url []
  /\ (failure env url /\ snd (task env url el) = fallbackNotice
      \/ exists res buffer written,
           fetch env url = inr res /\ ok res = true
           /\ arrayBuffer res = inr buffer
           /\ renderAsync env buffer [] = (written, None)
           /\ snd (task env url el) = written).
Proof.
  split; [apply task_never_throws|].
  destruct (fetch env url) as [e | res] eqn:Hf.
  { assert (Hfail : failure env url) by (eapply NetworkError; eassumption).
    rewrite !(task_failure _ Hfail). split; [reflexivity|]. now left. }
  destruct (ok res) eqn:Hok.
  2:{ assert (Hfail : failure env url) by (eapply NotOkStatus; eassumption).
      rewrite !(task_failure _ Hfail). split; [reflexivity|]. now left. }
  destruct (arrayBuffer res) as [e | buffer] eqn:Hbuf.
  { assert (Hfail : failure env url) by (eapply BodyError; eassumption).
    rewrite !(task_failure _ Hfail). split; [reflexivity|]. now left. }
  destruct (renderAsync env buffer []) as [written [e|]] eqn:Hr.
  { assert (Hfail : failure env url) by (eapply RenderException; eassumption).
    rewrite !(task_failure _ Hfail). split; [reflexivity|]. now left. }
  rewrite (@task_success env url el res buffer written Hf Hok Hbuf Hr),
    (@task_success env url [] res buffer written Hf Hok Hbuf Hr).
  split; [reflexivity|].
  right. now exists res, buffer, written.
Qed.

End ViewerTaskFacts.

(* ------------------------------------------------------------------------ *)
(** ** The route handler and the disk *)

Module RouteAnswerFacts.
Import JS Route.

(** X26: The handler throws exactly when the file cannot be read; every answer
    it gives has status 200, the word-processing content type as its only
    header, and the content of the file as body: it never answers with an
    error status. *)
Theorem GET_answers_or_throws cwd path_join readFileSync :
  (GET cwd path_join readFileSync = None
   <-> readFileSync (filePath cwd path_join) = None)
  /\ (forall r, GET cwd path_join readFileSync = Some r ->
                status r = 200%Z
                /\ headers r = [(str "Content-Type", docxContentType)]
                /\ readFileSync (filePath cwd path_join) = Some (body r)).
Proof.
  unfold GET. destruct (readFileSync (filePath cwd path_join)) as [fileBuffer|].
  - split; [split; discriminate|]. intros r H. injection H as <-. repeat split.
  - split; [tauto|]. discriminate.
Qed.

Lemma GET_answers_or_throws_witness :
  GET (str "/srv/app") Scenario.posixJoin (fun _ => None) = None.
Proof.
  exact (proj2 (proj1 (@GET_answers_or_throws (str "/srv/app") Scenario.posixJoin
                         (fun _ => None))) eq_refl).
Defined.

End RouteAnswerFacts.

(* ------------------------------------------------------------------------ *)
(** ** The table facts on concrete data *)

Module TableScenarios.
Import JS Dashboard DashboardFacts TableFacts Sample Scenario.
Local Open Scope Z_scope.

Local Abbreviation lower := toLowerCaseASCII.
Local Abbreviation getTime := IsoDate.getTime.

Lemma thirdPage_reachable : reachable lower getTime twelveProjects thirdPage.
Proof. apply ScenarioFacts.reachable_run, reach_init. Qed.

Lemma secondPage_reachable : reachable lower getTime twelveProjects secondPage.
Proof. apply ScenarioFacts.reachable_run, reach_init. Qed.

Lemma default_filters_show_all_witness :
  trim (searchTerm sampleInitial) = []
  /\ riskFilter sampleInitial = RF_All
  /\ userFilter sampleInitial = str "All"
  /\ filteredProjects lower mockProjects sampleInitial = mockProjects.
Proof.
  split; [reflexivity|]. split; [reflexivity|]. split; [reflexivity|].
  exact (@default_filters_show_all lower mockProjects sampleInitial
           eq_refl eq_refl eq_refl).
Defined.

Lemma sort_by_invalid_dates_keeps_order_witness :
  map id (sortedProjects lower getTime undatedProjects (initialState undatedProjects))
  = [str "5"; str "6"; str "4"]
  /\ dateField (sortKey undatedByCreation) = Some createdAt
  /\ sortDir undatedByCreation = desc
  /\ sortDir undatedByCreationAscending = asc
  /\ (forall p, In p undatedProjects -> isNaN (getTime (createdAt p)) = true)
  /\ sortedProjects lower getTime undatedProjects undatedByCreation
     = [undatedProject; laterUndatedProject; blankDatedProject]
  /\ sortedProjects lower getTime undatedProjects undatedByCreationAscending
     = [undatedProject; laterUndatedProject; blankDatedProject].
Proof.
  assert (Hnan : forall p, In p undatedProjects -> isNaN (getTime (createdAt p)) = true).
  { intros p [<- | [<- | [<- | []]]]; vm_compute; reflexivity. }
  assert (Hd : filteredProjects lower undatedProjects undatedByCreation
               = undatedProjects) by (vm_compute; reflexivity).
  assert (Ha : filteredProjects lower undatedProjects undatedByCreationAscending
               = undatedProjects) by (vm_compute; reflexivity).
  split; [vm_compute; reflexivity|]. split; [reflexivity|].
  split; [reflexivity|]. split; [reflexivity|]. split; [exact Hnan|]. split.
  - rewrite (@sort_by_invalid_dates_keeps_order lower getTime undatedProjects
               undatedByCreation createdAt eq_refl);
      [exact Hd | rewrite Hd; exact Hnan].
  - rewrite (@sort_by_invalid_dates_keeps_order lower getTime undatedProjects
               undatedByCreationAscending createdAt eq_refl);
      [exact Ha | rewrite Ha; exact Hnan].
Defined.

Lemma sort_click_keeps_page_witness :
  reachable lower getTime twelveProjects thirdPage
  /\ currentPage (step lower getTime twelveProjects
                       (ClickSort SK_totalWeightedScore) thirdPage) = 2.
Proof.
  split; [exact thirdPage_reachable|].
  rewrite (proj1 (@sort_click_keeps_page lower getTime twelveProjects thirdPage
                    SK_totalWeightedScore thirdPage_reachable)).
  vm_compute. reflexivity.
Defined.

Lemma pages_tile_sorted_list_witness :
  0 < pageSize thirdPage
  /\ List.concat
       (map (fun i => paginatedProjects lower getTime twelveProjects
                        (setCurrentPage (Z.of_nat i) thirdPage))
            (seq 0 (Z.to_nat (totalPages lower getTime twelveProjects thirdPage))))
     = sortedProjects lower getTime twelveProjects thirdPage.
Proof.
  assert (Hps : 0 < pageSize thirdPage) by (vm_compute; reflexivity).
  split; [exact Hps|].
  exact (@pages_tile_sorted_list lower getTime twelveProjects thirdPage Hps).
Defined.

Lemma visible_row_count_witness :
  reachable lower getTime twelveProjects thirdPage
  /\ Z.of_nat (List.length (paginatedProjects lower getTime twelveProjects thirdPage)) = 2.
Proof.
  split; [exact thirdPage_reachable|].
  rewrite (proj1 (@visible_row_count lower getTime twelveProjects thirdPage
                    thirdPage_reachable)).
  vm_compute. reflexivity.
Defined.

Lemma no_match_row_iff_nothing_filtered_witness :
  reachable lower getTime mockProjects highRiskNoMatch
  /\ showsNoMatchRow lower getTime mockProjects highRiskNoMatch = true.
Proof.
  assert (Hr : reachable lower getTime mockProjects highRiskNoMatch)
    by (apply ScenarioFacts.reachable_run, reach_init).
  split; [exact Hr|].
  apply (proj2 (@no_match_row_iff_nothing_filtered lower getTime mockProjects
                  highRiskNoMatch Hr)).
  vm_compute. reflexivity.
Defined.

Lemma page_label_in_range_witness :
  reachable lower getTime twelveProjects thirdPage
  /\ pageLabel lower getTime twelveProjects thirdPage = (3, 3).
Proof.
  split; [exact thirdPage_reachable|].
  rewrite (proj1 (@page_label_in_range lower getTime twelveProjects thirdPage
                    thirdPage_reachable)).
  vm_compute. reflexivity.
Defined.

Lemma prev_next_move_one_page_witness :
  reachable lower getTime twelveProjects thirdPage
  /\ nextDisabled lower getTime twelveProjects thirdPage = true
  /\ currentPage (step lower getTime twelveProjects ClickPrev thirdPage) = 1.
Proof.
  split; [exact thirdPage_reachable|].
  destruct (@prev_next_move_one_page lower getTime twelveProjects thirdPage
              thirdPage_reachable) as [_ [Hnext [Hprev _]]].
  split.
  - apply Hnext. vm_compute. reflexivity.
  - rewrite Hprev. vm_compute. reflexivity.
Defined.

Lemma next_prev_round_trip_witness :
  reachable lower getTime twelveProjects secondPage
  /\ currentPage secondPage < totalPages lower getTime twelveProjects secondPage - 1
  /\ 0 < currentPage secondPage
  /\ step lower getTime twelveProjects ClickPrev
          (step lower getTime twelveProjects ClickNext secondPage) = secondPage
  /\ step lower getTime twelveProjects ClickNext
          (step lower getTime twelveProjects ClickPrev secondPage) = secondPage.
Proof.
  assert (H1 : currentPage secondPage
               < totalPages lower getTime twelveProjects secondPage - 1)
    by (vm_compute; reflexivity).
  assert (H2 : 0 < currentPage secondPage) by (vm_compute; reflexivity).
  destruct (@next_prev_round_trip lower getTime twelveProjects secondPage
              secondPage_reachable) as [Hnp Hpn].
  split; [exact secondPage_reachable|]. split; [exact H1|]. split; [exact H2|].
  split; [exact (Hnp H1) | exact (Hpn H2)].
Defined.

Lemma pageSize_is_an_option_witness :
  reachable lower getTime twelveProjects thirdPage
  /\ In (pageSize thirdPage) [5; 10; 20; 50; 100].
Proof.
  split; [exact thirdPage_reachable|].
  exact (@pageSize_is_an_option lower getTime twelveProjects thirdPage
           thirdPage_reachable).
Defined.

Lemma visible_rows_pass_filters_witness :
  In project2 (paginatedProjects lower getTime mockProjects highRisk)
  /\ matchesRisk highRisk project2 = true.
Proof.
  assert (Hin : In project2 (paginatedProjects lower getTime mockProjects highRisk)).
  { assert (Hp : paginatedProjects lower getTime mockProjects highRisk = [project2])
      by (vm_compute; reflexivity).
    rewrite Hp. now left. }
  split; [exact Hin|].
  exact (proj1 (proj2 (proj2 (@visible_rows_pass_filters lower getTime mockProjects
                                highRisk project2 Hin)))).
Defined.

Lemma offered_user_has_rows_witness :
  let st := setUserFilter (str "WYATT12") sampleInitial in
  In (str "WYATT12") (uniqueUsers mockProjects)
  /\ trim (searchTerm st) = []
  /\ riskFilter st = RF_All
  /\ userFilter st = str "WYATT12"
  /\ filteredProjects lower mockProjects st <> [].
Proof.
  cbv zeta.
  assert (Hin : In (str "WYATT12") (uniqueUsers mockProjects)).
  { assert (Hu : uniqueUsers mockProjects
                 = [str "TAE7758"; str "WYATT12"; str "TAF7337"])
      by (vm_compute; reflexivity).
    rewrite Hu. right. now left. }
  split; [exact Hin|].
  split; [reflexivity|]. split; [reflexivity|]. split; [reflexivity|].
  exact (@offered_user_has_rows lower mockProjects
           (setUserFilter (str "WYATT12") sampleInitial) (str "WYATT12")
           Hin eq_refl eq_refl eq_refl).
Defined.

Lemma table_events_keep_selection_witness :
  touchesSelection (ChangeRiskFilter RF_High) = false
  /\ current mockProjects (sampleStep (ChangeRiskFilter RF_High) sampleInitial)
     = current mockProjects sampleInitial.
Proof.
  split; [reflexivity|].
  exact (proj1 (@table_events_keep_selection lower getTime mockProjects sampleInitial
                  (ChangeRiskFilter RF_High) eq_refl)).
Defined.

Lemma selection_events_keep_table_witness :
  reachable lower getTime twelveProjects thirdPage
  /\ touchesSelection (ClickRiskSummary project1) = true
  /\ paginatedProjects lower getTime twelveProjects
       (step lower getTime twelveProjects (ClickRiskSummary project1) thirdPage)
     = paginatedProjects lower getTime twelveProjects thirdPage.
Proof.
  split; [exact thirdPage_reachable|]. split; [reflexivity|].
  exact (proj2 (@selection_events_keep_table lower getTime twelveProjects thirdPage
                  (ClickRiskSummary project1) thirdPage_reachable eq_refl)).
Defined.

Lemma empty_project_list_witness :
  reachable lower getTime [] (initialState [])
  /\ pageLabel lower getTime [] (initialState []) = (1, 1).
Proof.
  assert (Hr : reachable lower getTime [] (initialState [])) by constructor.
  split; [exact Hr|].
  exact (proj1 (proj2 (proj2 (@empty_project_list lower getTime (initialState []) Hr)))).
Defined.

End TableScenarios.
